(** * File2Link worker: a shallow embedding of [src/worker.js]

    The worker is a Telegram bot running on Cloudflare Workers.  A member of
    the required channel sends a file; the worker stores a Link Record in the
    [LINKS_KV] namespace and answers with a download link; [GET /file/...]
    redeems the link by proxying the file from Telegram.

    Modelling choices, all of them visible in the types below.
    - JavaScript strings are kept as their UTF-8 bytes ([string]).
    - Numbers are integers ([Z]): Telegram identifiers and byte counts are
      integers that a double holds exactly, below 2^53 in size.  There the
      decimal form [pretty] is the string of the number, and the arithmetic
      of the worker is exact; larger numbers are outside the model.
    - An update, a message and an attachment are records whose fields carry
      the types of the Bot API; an optional field is an [option], so that
      [None] is JavaScript's [undefined].
    - A reply of the Bot API is an arbitrary JSON document ([json]), because
      the worker has to cope with replies of any shape.
    - A text held by [LINKS_KV] is kept by what [JSON.parse] makes of it
      ([kv_text]): nothing, [null], or a value with the three properties of
      a Link Record.
    - A handler is a computation in the monad [M]: it reads and writes the
      KV namespace, records every outbound [fetch], and either returns or
      throws.  What the outside world answers is given by an [outside]
      record. *)

From stdpp Require Import gmap strings pretty list sorting.
From Stdlib Require Import ZArith Lia Ascii.

Local Open Scope string_scope.
Local Open Scope Z_scope.

Set Warnings "-register-all".

(** ** JavaScript values *)

Definition nl : string := String (Ascii.ascii_of_nat 10) EmptyString.
Definition dquote : string := String (Ascii.ascii_of_nat 34) EmptyString.

(** A JSON document as [response.json()] delivers it. *)
Inductive json :=
  | JNull
  | JBool (b : bool)
  | JNum (n : Z)
  | JStr (s : string)
  | JArr (items : list json)
  | JObj (fields : list (string * json)).

(** A JavaScript value: [None] is [undefined]. *)
Definition value := option json.

Definition undefined : value := None.

(** [ToBoolean]. *)
Definition truthy (v : value) : bool :=
  match v with
  | None | Some JNull => false
  | Some (JBool b) => b
  | Some (JNum n) => negb (n =? 0)
  | Some (JStr s) => negb (String.eqb s EmptyString)
  | Some (JArr _) | Some (JObj _) => true
  end.

(** [ToBoolean] of an optional string. *)
Definition truthy_str (s : option string) : bool :=
  match s with
  | Some s => negb (String.eqb s EmptyString)
  | None => false
  end.

(** [ToBoolean] of an optional object: an object is always truthy. *)
Definition present {A} (o : option A) : bool :=
  match o with
  | Some _ => true
  | None => false
  end.

(** Optional chaining [o?.f]. *)
Definition chain {A B} (o : option A) (f : A -> option B) : option B :=
  match o with
  | Some a => f a
  | None => None
  end.
Infix "?." := chain (at level 40, left associativity).

(** [a > b] where [a] may be [undefined]: [undefined] converts to [NaN],
    and every comparison with [NaN] is false. *)
Definition js_gt (a : option Z) (b : Z) : bool :=
  match a with
  | Some a => a >? b
  | None => false
  end.

(** [ToString] of an optional string, as a template literal does it. *)
Definition str_ToString (s : option string) : string :=
  match s with
  | Some s => s
  | None => "undefined"
  end.

(** [ToString] of a value.  An array is joined with commas, its [null]
    elements being empty; an object is ["[object Object]"]. *)
Fixpoint json_ToString (j : json) : string :=
  match j with
  | JNull => "null"
  | JBool true => "true"
  | JBool false => "false"
  | JNum n => pretty n
  | JStr s => s
  | JArr items =>
      String.concat ","
        ((fix each (l : list json) : list string :=
            match l with
            | [] => []
            | JNull :: l => EmptyString :: each l
            | x :: l => json_ToString x :: each l
            end) items)
  | JObj _ => "[object Object]"
  end.

Definition ToString (v : value) : string :=
  match v with
  | Some j => json_ToString j
  | None => "undefined"
  end.

(** [s.split(sep)] for a separator of one character: the pieces between
    the separators, of which there is always at least one. *)
Fixpoint split (sep : Ascii.ascii) (s : string) : list string :=
  match s with
  | EmptyString => [EmptyString]
  | String c s =>
      if Ascii.eqb c sep then EmptyString :: split sep s
      else
        match split sep s with
        | piece :: pieces => String c piece :: pieces
        | [] => [String c EmptyString]
        end
  end.

(** [encodeURIComponent]: every byte of the UTF-8 form is escaped except
    letters, digits and [- _ . ! ~ * ' ( )]. *)
Definition hex_digit (n : N) : Ascii.ascii :=
  Ascii.ascii_of_N (if (n <? 10)%N then 48 + n else 55 + n)%N.

Definition uri_unreserved (c : Ascii.ascii) : bool :=
  let n := Ascii.N_of_ascii c in
  ((48 <=? n) && (n <=? 57) || (65 <=? n) && (n <=? 90)
   || (97 <=? n) && (n <=? 122))%N
  || bool_decide (c ∈ ["-"; "_"; "."; "!"; "~"; "*"; "'"; "("; ")"]%char).

Fixpoint encodeURIComponent (s : string) : string :=
  match s with
  | EmptyString => EmptyString
  | String c s =>
      if uri_unreserved c then String c (encodeURIComponent s)
      else
        let n := Ascii.N_of_ascii c in
        String "%" (String (hex_digit (n / 16)) (String (hex_digit (n mod 16))
          (encodeURIComponent s)))
  end.

(** ** Telegram updates

    The fields the worker reads, typed as the Bot API types them. *)

Record Attachment := {
  file_id : option string;
  file_name : option string;
  file_size : option Z;
}.

Record Chat := { chat_id : option Z }.
Record User := { user_id : option Z }.

Record Message := {
  chat : option Chat;
  from : option User;
  text : option string;
  document : option Attachment;
  video : option Attachment;
  audio : option Attachment;
  photo : option (list Attachment);
}.

Record Update := { message : option Message }.

(** What [extractFileInfo] returns and what a Link Record holds:
    [{fileId?: string, fileName?: string, fileSize?: number}]. *)
Record FileInfo := {
  fileId : option string;
  fileName : option string;
  fileSize : option Z;
}.

(** ** HTTP *)

Record Response := {
  status : Z;
  statusText : string;
  headers : list (string * string);
  body : string;
}.

(** A request as the router sees it: [payload] is the update object that
    [request.json()] resolves to, [None] when it rejects.  A body that is
    JSON but not an update of the Bot API ([null], or fields of other types
    than those of [Message]) is outside the model. *)
Record Request := {
  method : string;
  pathname : string;
  payload : option Update;
}.

(** ** The outside world *)

(** The configuration bindings of the worker. *)
Record config := {
  BOT_TOKEN : string;
  WORKER_DOMAIN : string;
  CHANNEL_ID : string;
  CHANNEL_USERNAME : string;
}.

(** [fetch(url)] followed by [response.json()]: either promise may reject. *)
Inductive api_reply :=
  | FetchRejects
  | JsonRejects
  | Data (data : json).

(** The answers of the network and of [crypto.randomUUID()] during one
    request.  [post] tells whether a [fetch] with a body resolves;
    [download] is a plain [fetch], [None] when it rejects. *)
Record outside := {
  api : string -> api_reply;
  post : string -> json -> bool;
  download : string -> option Response;
  randomUUID : string;
}.

(** A text held by the KV namespace.  The worker writes nothing but
    [JSON.stringify] of a Link Record, and reads a text only to test it for
    emptiness and to hand it to [JSON.parse]; the text is therefore kept by
    what these two make of it:
    - [EmptyText], the empty string;
    - [Malformed], a text on which [JSON.parse] throws;
    - [Encodes meta], a text that [JSON.parse] reads as a value whose
      properties [fileId], [fileName] and [fileSize] are those of [meta]:
      the text of a record, which reads back as that record
      ([JSON.stringify] leaves out a property that is [undefined], and
      reading gives [undefined] for a property left out), and also the text
      of a number, a string, a boolean or an array, which has none of the
      three;
    - [NullText], the text [null], which [JSON.parse] reads as [null].
    A text whose [fileId] or [fileName] is not a string, or whose [fileSize]
    is not such a number, is outside the model. *)
Inductive kv_text :=
  | EmptyText
  | Malformed
  | Encodes (meta : FileInfo)
  | NullText.

(** An outbound request: [fetch(url)], or [fetch(url, init)] where [init]
    is a POST of [JSON.stringify(sent)] with content type
    [application/json]. *)
Inductive call :=
  | Get (url : string)
  | Post (url : string) (sent : json).

Record world := {
  LINKS_KV : gmap string kv_text;
  calls : list call;
}.

(** ** The monad of handlers *)

(** What a handler can throw.  [NetworkError] stands for the rejection of
    a [fetch]; it is kept apart from the [TypeError] of a property read on
    [null] or [undefined]. *)
Inductive exn := TypeError | SyntaxError | RangeError | NetworkError.

Inductive completion (A : Type) :=
  | Return (a : A)
  | Throw (e : exn).
Arguments Return {A} a.
Arguments Throw {A} e.

Definition M (A : Type) : Type := world -> completion A * world.

#[global] Instance M_ret : MRet M := fun A a w => (Return a, w).

#[global] Instance M_bind : MBind M := fun A B f m w =>
  match m w with
  | (Return a, w') => f a w'
  | (Throw e, w') => (Throw e, w')
  end.

Definition throw {A} (e : exn) : M A := fun w => (Throw e, w).

(** [try { m } catch (error) { h }]; what a handler writes to the console
    is left out. *)
Definition try_catch {A} (m : M A) (h : exn -> M A) : M A := fun w =>
  match m w with
  | (Return a, w') => (Return a, w')
  | (Throw e, w') => h e w'
  end.

(** The world once one more request has gone out. *)
Definition log (c : call) (w : world) : world :=
  {| LINKS_KV := LINKS_KV w; calls := calls w ++ [c] |}.

Definition record_call (c : call) : M unit := fun w => (Return tt, log c w).

(** *** The KV binding *)

Definition KV_get (key : string) : M (option kv_text) := fun w =>
  (Return (LINKS_KV w !! key), w).

Definition KV_put (key : string) (v : kv_text) : M unit := fun w =>
  (Return tt, {| LINKS_KV := <[key := v]> (LINKS_KV w); calls := calls w |}).

Definition KV_delete (key : string) : M unit := fun w =>
  (Return tt, {| LINKS_KV := delete key (LINKS_KV w); calls := calls w |}).

(** [list({prefix})]: the names that start with [prefix], in the order of
    their bytes, at most 1000 of them. *)
Definition list_keys (prefix : string) (kv : gmap string kv_text) : list string :=
  take 1000 (merge_sort String.le
    (List.filter (String.prefix prefix) (elements (dom kv)))).

Definition KV_list (prefix : string) : M (list string) := fun w =>
  (Return (list_keys prefix (LINKS_KV w)), w).

(** [JSON.stringify] of a Link Record and [JSON.parse] of a stored text;
    the result of the latter is [None] for [null]. *)
Definition JSON_stringify (meta : FileInfo) : kv_text := Encodes meta.

Definition JSON_parse (t : kv_text) : M (option FileInfo) :=
  match t with
  | Encodes meta => mret (Some meta)
  | NullText => mret None
  | EmptyText | Malformed => throw SyntaxError
  end.

(** [meta.property] on what [JSON.parse] gave: a TypeError on [null]. *)
Definition read {A} (meta : option FileInfo) (property : FileInfo -> A) : M A :=
  match meta with
  | Some meta => mret (property meta)
  | None => throw TypeError
  end.

(** *** Property access on a reply

    [v.k] for the names the worker reads ([ok], [result], [status],
    [file_path]), none of which a prototype provides. *)
Definition field (k : string) (fields : list (string * json)) : value :=
  snd <$> List.find (fun kv => String.eqb (fst kv) k) (rev fields).

Definition prop (v : value) (k : string) : M value :=
  match v with
  | None | Some JNull => throw TypeError
  | Some (JObj fields) => mret (field k fields)
  | Some _ => mret undefined
  end.

(** [names.includes(v)] *)
Definition includes (names : list string) (v : value) : bool :=
  match v with
  | Some (JStr s) => bool_decide (s ∈ names)
  | _ => false
  end.

(** *** Responses and headers *)

(** [new Response(text, { status })] *)
Definition text_Response (text : string) (status : Z) : Response :=
  {| status := status; statusText := EmptyString;
     headers := [("content-type", "text/plain;charset=UTF-8")];
     body := text |}.

(** [new Response(body, { status, statusText, headers })]: a status outside
    200..599 is a [RangeError]. *)
Definition new_Response (body : string) (status : Z) (statusText : string)
    (headers : list (string * string)) : M Response :=
  if (200 <=? status) && (status <=? 599) then
    mret {| status := status; statusText := statusText;
            headers := headers; body := body |}
  else throw RangeError.

Definition lower_char (c : Ascii.ascii) : Ascii.ascii :=
  let n := Ascii.N_of_ascii c in
  if ((65 <=? n) && (n <=? 90))%N then Ascii.ascii_of_N (n + 32) else c.

Fixpoint lower (s : string) : string :=
  match s with
  | EmptyString => EmptyString
  | String c s => String (lower_char c) (lower s)
  end.

Definition same_name (a b : string) : bool := String.eqb (lower a) (lower b).

(** [headers.get(name)]: the values under [name], joined. *)
Definition Headers_get (name : string) (hs : list (string * string)) : option string :=
  match List.filter (fun h => same_name (fst h) name) hs with
  | [] => None
  | found => Some (String.concat ", " (snd <$> found))
  end.

(** [headers.set(name, value)]: the first header of that name takes the
    value and the others go; without one the header is appended. *)
Fixpoint Headers_set (name value : string) (hs : list (string * string))
    : list (string * string) :=
  match hs with
  | [] => [(name, value)]
  | h :: hs =>
      if same_name (fst h) name
      then (fst h, value) :: List.filter (fun h => negb (same_name (fst h) name)) hs
      else h :: Headers_set name value hs
  end.

(** [(n / 1024 / 1024).toFixed(2)] for an integer [n] below 2^53 in size:
    the two divisions are exact, and [toFixed] takes the nearest hundredth
    of the absolute value, the larger one on a tie, behind the sign.  (From
    10^21 on [toFixed] changes to the exponent form, which no such [n]
    reaches.) *)
Definition hundredths (n : Z) : Z := (200 * Z.abs n + 1048576) / 2097152.

Definition two_digits (n : Z) : string :=
  if n <? 10 then "0" +:+ pretty n else pretty n.

Definition toFixed2_MiB (n : Z) : string :=
  (if n <? 0 then "-" else EmptyString)
  +:+ pretty (hundredths n / 100) +:+ "." +:+ two_digits (hundredths n mod 100).

(** The same for a size that may be [undefined], which divides to [NaN]. *)
Definition sizeMB_of (fileSize : option Z) : string :=
  match fileSize with
  | Some n => toFixed2_MiB n
  | None => "NaN"
  end.

(** ** The worker *)

Definition MAX_FILE_SIZE : Z := 20 * 1024 * 1024.

Section Worker.

Variable env : config.
Variable net : outside.

Definition fetch_json (url : string) : M json :=
  _ ← record_call (Get url);
  match api net url with
  | FetchRejects => throw NetworkError
  | JsonRejects => throw SyntaxError
  | Data data => mret data
  end.

Definition fetch_post (url : string) (sent : json) : M unit :=
  _ ← record_call (Post url sent);
  if post net url sent then mret tt else throw NetworkError.

Definition fetch (url : string) : M Response :=
  _ ← record_call (Get url);
  match download net url with
  | Some response => mret response
  | None => throw NetworkError
  end.

Definition TELEGRAM_API_URL : string :=
  "https://api.telegram.org/bot" +:+ BOT_TOKEN env.

Definition sendTelegramMessage (chatId : Z) (text : string) : M Response :=
  _ ← fetch_post (TELEGRAM_API_URL +:+ "/sendMessage")
        (JObj [("chat_id", JNum chatId); ("text", JStr text);
               ("parse_mode", JStr "Markdown")]);
  mret (text_Response "OK" 200).

Definition isUserMember (userId : Z) : M value :=
  try_catch
    (data ← fetch_json (TELEGRAM_API_URL +:+ "/getChatMember?chat_id="
               +:+ CHANNEL_ID env +:+ "&user_id=" +:+ pretty userId);
     ok ← prop (Some data) "ok";
     if truthy ok then
       result ← prop (Some data) "result";
       status ← prop result "status";
       mret (Some (JBool (includes ["member"; "creator"; "administrator"] status)))
     else mret ok)
    (fun error => mret (Some (JBool false))).

(** The result is the URL, or [None] for [null]. *)
Definition getTelegramFileLink (fileId : option string) : M (option string) :=
  try_catch
    (data ← fetch_json (TELEGRAM_API_URL +:+ "/getFile?file_id="
               +:+ str_ToString fileId);
     ok ← prop (Some data) "ok";
     if negb (truthy ok) then mret None
     else
       result ← prop (Some data) "result";
       file_path ← prop result "file_path";
       mret (Some ("https://api.telegram.org/file/bot" +:+ BOT_TOKEN env
                   +:+ "/" +:+ ToString file_path)))
    (fun error => mret None).

Definition extractFileInfo (message : Message) : FileInfo :=
  let file :=
    match document message, video message, audio message with
    | Some file, _, _ | None, Some file, _ | None, None, Some file => Some file
    | None, None, None => photo message ?. last
    end in
  match file with
  | None => {| fileId := None; fileName := None; fileSize := None |}
  | Some file =>
      let fileName :=
        if truthy_str (file_name file) then file_name file
        else Some (if present (video message) then "video.mp4"
                   else if present (audio message) then "audio.mp3"
                   else "photo.jpg") in
      {| fileId := file_id file; fileName := fileName;
         fileSize := file_size file |}
  end.

Definition link_of (userId : string) (token : string) : string :=
  WORKER_DOMAIN env +:+ "/file/" +:+ userId +:+ "/" +:+ token.

(** The body of the [for] loop of [sendUserLinks], over the remaining keys. *)
Fixpoint sendUserLinks_loop (userId : Z) (keys : list string) (message : string)
    : M string :=
  match keys with
  | [] => mret message
  | name :: keys =>
      value ← KV_get name;
      match value with
      | None | Some EmptyText => sendUserLinks_loop userId keys message
      | Some value =>
          meta ← JSON_parse value;
          let token := split ":" name !! 2%nat in
          let link := link_of (pretty userId) (str_ToString token) in
          metaFileSize ← read meta fileSize;
          let sizeMB := sizeMB_of metaFileSize in
          metaFileName ← read meta fileName;
          sendUserLinks_loop userId keys
            (message +:+ "• " +:+ str_ToString metaFileName +:+ " ("
             +:+ sizeMB +:+ " MB)" +:+ nl +:+ "`" +:+ link +:+ "`" +:+ nl +:+ nl)
      end
  end.

Definition sendUserLinks (chatId userId : Z) : M Response :=
  list ← KV_list ("user:" +:+ pretty userId +:+ ":");
  if (length list =? 0)%nat then
    sendTelegramMessage chatId "ℹ️ You have no active links."
  else
    message ← sendUserLinks_loop userId list ("🔗 Your active links:" +:+ nl +:+ nl);
    sendTelegramMessage chatId message.

Definition handleTelegramWebhook (request : Request) : M Response :=
  if negb (String.eqb (method request) "POST") then
    mret (text_Response "Invalid request method" 405)
  else
    match payload request with
    | None => throw SyntaxError
    | Some update =>
        match message update,
              message update ?. chat ?. chat_id,
              message update ?. from ?. user_id with
        | Some message, Some chatId, Some userId =>
            if (chatId =? 0) || (userId =? 0) then mret (text_Response "OK" 200)
            else
              member ← isUserMember userId;
              if negb (truthy member) then
                sendTelegramMessage chatId
                  ("⛔ To use this bot, you must first join "
                   +:+ CHANNEL_USERNAME env +:+ ".")
              else if truthy_str (text message)
                      && String.eqb (str_ToString (text message)) "/start" then
                sendTelegramMessage chatId
                  "👋 Hi! Send me a file (up to 20MB), and I will generate a direct download link for you."
              else if truthy_str (text message)
                      && String.prefix "/links" (str_ToString (text message)) then
                sendUserLinks chatId userId
              else
                let info := extractFileInfo message in
                if negb (truthy_str (fileId info)) || negb (truthy_str (fileName info)) then
                  sendTelegramMessage chatId "❗ Please send a valid file."
                else if js_gt (fileSize info) MAX_FILE_SIZE then
                  sendTelegramMessage chatId
                    "❌ Sorry, bots cannot process files larger than 20MB."
                else
                  let token := randomUUID net in
                  let key := "user:" +:+ pretty userId +:+ ":" +:+ token in
                  _ ← KV_put key (JSON_stringify info);
                  let link := link_of (pretty userId) token in
                  sendTelegramMessage chatId
                    ("✅ Your download link is ready:" +:+ nl +:+ "`" +:+ link
                     +:+ "`" +:+ nl +:+ nl
                     +:+ "⚠️ This is a direct link from Telegram and may expire after a while.")
        | _, _, _ => mret (text_Response "OK" 200)
        end
    end.

Definition serveFile (userId token : option string) : M Response :=
  if negb (truthy_str userId) || negb (truthy_str token) then
    mret (text_Response "⛔ Missing user ID or token." 400)
  else
    let key := "user:" +:+ str_ToString userId +:+ ":" +:+ str_ToString token in
    metaStr ← KV_get key;
    match metaStr with
    | None | Some EmptyText =>
        mret (text_Response "⛔ This link is invalid or has expired." 403)
    | Some metaStr =>
        meta ← JSON_parse metaStr;
        metaFileId ← read meta fileId;
        telegramFileUrl ← getTelegramFileLink metaFileId;
        if negb (truthy_str telegramFileUrl) then
          _ ← KV_delete key;
          mret (text_Response
            "❌ Could not retrieve file from Telegram. The link may have expired." 502)
        else
          fileResponse ← fetch (str_ToString telegramFileUrl);
          metaFileName ← read meta fileName;
          let headers :=
            Headers_set "Content-Disposition"
              ("attachment; filename=" +:+ dquote
               +:+ encodeURIComponent (str_ToString metaFileName) +:+ dquote)
              (headers fileResponse) in
          new_Response (body fileResponse) (status fileResponse)
            (statusText fileResponse) headers
    end.

Definition handleRequest (request : Request) : M Response :=
  let pathParts := split "/" (pathname request) in
  let route := pathParts !! 1%nat in
  if bool_decide (route = Some "webhook") then handleTelegramWebhook request
  else if bool_decide (route = Some "file") then
    let userId := pathParts !! 2%nat in
    let token := pathParts !! 3%nat in
    serveFile userId token
  else mret (text_Response "Not Found" 404).

End Worker.

(** ** Vocabulary of the statements *)

(** The name under which a Link Record is kept. *)
Definition key_of (userId token : string) : string :=
  "user:" +:+ userId +:+ ":" +:+ token.

(** The request [isUserMember] sends for a user. *)
Definition membership_query (env : config) (userId : Z) : call :=
  Get (TELEGRAM_API_URL env +:+ "/getChatMember?chat_id=" +:+ CHANNEL_ID env
       +:+ "&user_id=" +:+ pretty userId).

(** The request [getTelegramFileLink] sends for a file identifier. *)
Definition file_query (env : config) (fileId : option string) : call :=
  Get (TELEGRAM_API_URL env +:+ "/getFile?file_id=" +:+ str_ToString fileId).

(** The request that delivers a chat message, and what [sendTelegramMessage]
    completes with: the acknowledgement when that request resolves. *)
Definition sendMessage_body (chatId : Z) (text : string) : json :=
  JObj [("chat_id", JNum chatId); ("text", JStr text);
        ("parse_mode", JStr "Markdown")].

Definition reply (env : config) (chatId : Z) (text : string) : call :=
  Post (TELEGRAM_API_URL env +:+ "/sendMessage") (sendMessage_body chatId text).

Definition acknowledged (env : config) (net : outside) (chatId : Z)
    (text : string) : completion Response :=
  if post net (TELEGRAM_API_URL env +:+ "/sendMessage")
       (sendMessage_body chatId text)
  then Return (text_Response "OK" 200)
  else Throw NetworkError.

(** The fixed texts of the worker. *)
Definition join_text (env : config) : string :=
  "⛔ To use this bot, you must first join " +:+ CHANNEL_USERNAME env +:+ ".".
Definition invalid_file_text : string := "❗ Please send a valid file.".
Definition too_large_text : string :=
  "❌ Sorry, bots cannot process files larger than 20MB.".
Definition no_links_text : string := "ℹ️ You have no active links.".
Definition links_header : string := "🔗 Your active links:" +:+ nl +:+ nl.
Definition link_ready_text (link : string) : string :=
  "✅ Your download link is ready:" +:+ nl +:+ "`" +:+ link +:+ "`" +:+ nl +:+ nl
  +:+ "⚠️ This is a direct link from Telegram and may expire after a while.".

Definition missing_response : Response :=
  text_Response "⛔ Missing user ID or token." 400.
Definition forbidden_response : Response :=
  text_Response "⛔ This link is invalid or has expired." 403.
Definition bad_gateway_response : Response :=
  text_Response
    "❌ Could not retrieve file from Telegram. The link may have expired." 502.

(** [needle] occurs in [hay]. *)
Definition contains (needle hay : string) : Prop :=
  exists before after, hay = before +:+ needle +:+ after.

(** A well-formed inbound message: a POST whose update carries a message
    with a chat id and a sender id, both truthy. *)
Record inbound (request : Request) (m : Message) (chatId userId : Z) : Prop := {
  inbound_method : method request = "POST";
  inbound_payload : payload request = Some {| message := Some m |};
  inbound_chat : chat m ?. chat_id = Some chatId;
  inbound_from : from m ?. user_id = Some userId;
  inbound_chat_id : chatId <> 0;
  inbound_user_id : userId <> 0;
}.

(** The sender passes the membership check of the handler. *)
Definition passes_membership (env : config) (net : outside) (userId : Z)
    (w : world) : bool :=
  match fst (isUserMember env net userId w) with
  | Return member => truthy member
  | Throw _ => false
  end.

(** The text of the message is one of the commands the handler dispatches. *)
Definition is_command (m : Message) : bool :=
  truthy_str (text m)
  && (String.eqb (str_ToString (text m)) "/start"
      || String.prefix "/links" (str_ToString (text m))).

(** A file message from a member: a well-formed inbound message whose
    sender passes the membership check, which is not a command, and whose
    attachment has an identifier. *)
Record file_message (env : config) (net : outside) (request : Request)
    (m : Message) (chatId userId : Z) (w : world) : Prop := {
  file_inbound : inbound request m chatId userId;
  file_member : passes_membership env net userId w = true;
  file_not_command : is_command m = false;
  file_has_id : truthy_str (fileId (extractFileInfo m)) = true;
}.

(** The world after the handler has issued a link for [info]. *)
Definition issued (env : config) (net : outside) (chatId userId : Z)
    (info : FileInfo) (w : world) : world :=
  {| LINKS_KV :=
       <[key_of (pretty userId) (randomUUID net) := Encodes info]> (LINKS_KV w);
     calls :=
       calls w ++ [membership_query env userId;
                   reply env chatId
                     (link_ready_text
                        (link_of env (pretty userId) (randomUUID net)))] |}.

(** The world after the handler has answered with [text] and stored
    nothing. *)
Definition answered (env : config) (chatId userId : Z) (text : string)
    (w : world) : world :=
  {| LINKS_KV := LINKS_KV w;
     calls := calls w ++ [membership_query env userId; reply env chatId text] |}.

(** The attachment [extractFileInfo] settles on: the value of its local
    [file]. *)
Definition selected_file (m : Message) : option Attachment :=
  match document m, video m, audio m with
  | Some file, _, _ | None, Some file, _ | None, None, Some file => Some file
  | None, None, None => photo m ?. last
  end.

(** ** Sample data *)

Definition sample_env : config :=
  {| BOT_TOKEN := "123:secret"; WORKER_DOMAIN := "https://f2l.example.workers.dev";
     CHANNEL_ID := "-100123456789"; CHANNEL_USERNAME := "@MyChannel" |}.

Definition getChatMember_reply (status : string) : api_reply :=
  Data (JObj [("ok", JBool true); ("result", JObj [("status", JStr status)])]).

Definition getFile_reply (file_path : string) : api_reply :=
  Data (JObj [("ok", JBool true); ("result", JObj [("file_path", JStr file_path)])]).

Definition error_reply : api_reply :=
  Data (JObj [("ok", JBool false); ("error_code", JNum 400);
              ("description", JStr "Bad Request")]).

Definition upstream_file : Response :=
  {| status := 200; statusText := "OK";
     headers := [("content-type", "application/octet-stream");
                 ("content-length", "5");
                 ("Content-Disposition", "inline")];
     body := "hello" |}.

(** A network on which every user has the given status in the channel and
    every file resolves. *)
Definition sample_net (status : string) : outside :=
  {| api := fun url =>
       if String.prefix "https://api.telegram.org/bot123:secret/getChatMember" url
       then getChatMember_reply status
       else getFile_reply "documents/file_7.pdf";
     post := fun _ _ => true;
     download := fun _ => Some upstream_file;
     randomUUID := "3b241101-e2bb-4255-8caf-4136c566a962" |}.

(** A network on which the Bot API answers every request with an error. *)
Definition failing_net : outside :=
  {| api := fun _ => error_reply;
     post := fun _ _ => true;
     download := fun _ => None;
     randomUUID := "3b241101-e2bb-4255-8caf-4136c566a962" |}.

(** A network on which every request fails. *)
Definition offline_net : outside :=
  {| api := fun _ => FetchRejects;
     post := fun _ _ => false;
     download := fun _ => None;
     randomUUID := "3b241101-e2bb-4255-8caf-4136c566a962" |}.

Definition empty_world : world := {| LINKS_KV := ∅; calls := [] |}.

Definition sample_message (text : option string) (document : option Attachment)
    (photo : option (list Attachment)) : Message :=
  {| chat := Some {| chat_id := Some 42 |}; from := Some {| user_id := Some 42 |};
     text := text; document := document; video := None; audio := None;
     photo := photo |}.

Definition webhook_request (m : Message) : Request :=
  {| method := "POST"; pathname := "/webhook";
     payload := Some {| message := Some m |} |}.

Definition report_pdf (size : option Z) : Attachment :=
  {| file_id := Some "abc"; file_name := Some "report.pdf"; file_size := size |}.

Definition document_message (size : option Z) : Message :=
  sample_message None (Some (report_pdf size)) None.

Definition sample_record : FileInfo :=
  {| fileId := Some "abc"; fileName := Some "annual report.pdf";
     fileSize := Some 1048576 |}.

Definition sample_token : string := "3b241101-e2bb-4255-8caf-4136c566a962".

(** A world in which user 42 holds one link. *)
Definition stored_world : world :=
  {| LINKS_KV := {[ key_of "42" sample_token := Encodes sample_record ]};
     calls := [] |}.

(** The Content-Disposition that [serveFile] sets for a file name. *)
Definition content_disposition (name : string) : string :=
  "attachment; filename=" +:+ dquote +:+ encodeURIComponent name +:+ dquote.

(** The reply is well-formed, reports success, and gives the user one of
    the three statuses that count as membership. *)
Definition reports_member (r : api_reply) : bool :=
  match r with
  | Data (JObj fields) =>
      truthy (field "ok" fields)
      && match field "result" fields with
         | Some (JObj result) =>
             includes ["member"; "creator"; "administrator"] (field "status" result)
         | _ => false
         end
  | _ => false
  end.

(** A network on which the Bot API answers with an error body that has no
    [ok] field. *)
Definition throttled_net : outside :=
  {| api := fun _ =>
       Data (JObj [("error_code", JNum 429);
                   ("description", JStr "Too Many Requests")]);
     post := fun _ _ => true;
     download := fun _ => None;
     randomUUID := sample_token |}.

(** [file] is a largest one of [variants]: no variant reports more bytes. *)
Definition is_largest (file : Attachment) (variants : list Attachment) : Prop :=
  forall other a b,
    other ∈ variants -> file_size other = Some a -> file_size file = Some b ->
    a <= b.

(** [p] reports no more bytes than [q]. *)
Definition size_le (p q : Attachment) : Prop :=
  forall a b, file_size p = Some a -> file_size q = Some b -> a <= b.

(** The attachment carries no usable name. *)
Definition unnamed (file : Attachment) : Prop := truthy_str (file_name file) = false.

(** [extractFileInfo] has taken the identifier and the size of [file]. *)
Definition extracted_from (m : Message) (file : Attachment) : Prop :=
  selected_file m = Some file
  /\ fileId (extractFileInfo m) = file_id file
  /\ fileSize (extractFileInfo m) = file_size file.

(** A photo whose variants arrive with the large one first. *)
Definition large_variant : Attachment :=
  {| file_id := Some "AgAD-large"; file_name := None; file_size := Some 90000 |}.
Definition thumb_variant : Attachment :=
  {| file_id := Some "AgAD-thumb"; file_name := None; file_size := Some 1200 |}.
Definition large_first_message : Message :=
  sample_message None None (Some [large_variant; thumb_variant]).

(** [c] occurs in [s]. *)
Fixpoint has_char (c : Ascii.ascii) (s : string) : bool :=
  match s with
  | EmptyString => false
  | String c' s => Ascii.eqb c' c || has_char c s
  end.

(** The line of a listing for the record [meta] kept under [name]. *)
Definition link_line (env : config) (userId : Z) (name : string) (meta : FileInfo)
    : string :=
  "• " +:+ str_ToString (fileName meta) +:+ " (" +:+ sizeMB_of (fileSize meta)
  +:+ " MB)" +:+ nl +:+ "`"
  +:+ link_of env (pretty userId) (str_ToString (split ":" name !! 2%nat))
  +:+ "`" +:+ nl +:+ nl.

(** The lines of a listing, in the order of [keys]: one for each key that
    holds a record, none for any other key. *)
Fixpoint listing (env : config) (userId : Z) (kv : gmap string kv_text)
    (keys : list string) : string :=
  match keys with
  | [] => EmptyString
  | name :: keys =>
      match kv !! name with
      | Some (Encodes meta) =>
          link_line env userId name meta +:+ listing env userId kv keys
      | _ => listing env userId kv keys
      end
  end.

(** The flow sends the header and the lines of the user's keys. *)
Definition listing_sent (env : config) (net : outside) (chatId userId : Z)
    (w : world) : Prop :=
  let text :=
    links_header
    +:+ listing env userId (LINKS_KV w)
          (list_keys ("user:" +:+ pretty userId +:+ ":") (LINKS_KV w)) in
  sendUserLinks env net chatId userId w
  = (acknowledged env net chatId text, log (reply env chatId text) w).

(** A world in which one of the values of user 42 is not JSON. *)
Definition malformed_world : world :=
  {| LINKS_KV := {[ key_of "42" sample_token := Malformed ]}; calls := [] |}.

(** A world in which user 42 holds a link to a file of unknown size. *)
Definition sizeless_world : world :=
  {| LINKS_KV :=
       {[ key_of "42" sample_token :=
            Encodes {| fileId := Some "abc"; fileName := Some "report.pdf";
                       fileSize := None |} ]};
     calls := [] |}.

(** A byte count as the Bot API gives it: absent, or an integer from 0
    to below 2^53. *)
Definition safe_size (fileSize : option Z) : Prop :=
  match fileSize with
  | Some n => 0 <= n < 2 ^ 53
  | None => True
  end.

(** What the listing can show or skip: an empty value, or the text of a
    Link Record (its [fileName] a string or absent, its [fileSize] such a
    byte count or absent). *)
Definition listable (value : option kv_text) : Prop :=
  value = Some EmptyText
  \/ exists meta, value = Some (Encodes meta) /\ safe_size (fileSize meta).

(** The character of a decimal digit. *)
Definition decimal_digit (d : Z) : Ascii.ascii :=
  Ascii.ascii_of_N (48 + Z.to_N d).

(** The replies of the Bot API carry a Boolean [ok]: a reply that is read
    as JSON is an object whose [ok] is [true] or [false]. *)
Definition bot_api_reply (r : api_reply) : Prop :=
  match r with
  | FetchRejects | JsonRejects => True
  | Data (JObj fields) => exists ok : bool, field "ok" fields = Some (JBool ok)
  | Data _ => False
  end.

(** The sample network at a later time, when [crypto.randomUUID()] gives
    another token. *)
Definition second_net : outside :=
  {| api := api (sample_net "member"); post := fun _ _ => true;
     download := fun _ => Some upstream_file;
     randomUUID := "9f1c2d3e-0000-4000-8000-5a5a5a5a5a5a" |}.

(** A world in which the one value of user 42 is the empty text. *)
Definition blank_world : world :=
  {| LINKS_KV := {[ key_of "42" sample_token := EmptyText ]}; calls := [] |}.

(** Unfolding the monad until a run computes. *)
Ltac run :=
  repeat (unfold mbind, M_bind, mret, M_ret, throw, try_catch, record_call,
            KV_get, KV_put, KV_delete, KV_list, JSON_parse, JSON_stringify, read;
          cbn).

(** ** Vocabulary of the further properties *)

Definition greeting_text : string :=
  "👋 Hi! Send me a file (up to 20MB), and I will generate a direct download link for you.".

Definition refused_response : Response :=
  text_Response "Invalid request method" 405.
Definition ok_response : Response := text_Response "OK" 200.
Definition not_found_response : Response := text_Response "Not Found" 404.

(** The ways a run of [handleTelegramWebhook] on [request] from the world
    [w] can end. *)
Inductive webhook_run (env : config) (net : outside) (request : Request)
    (w : world) : completion Response * world -> Prop :=
  | run_refused :
      method request <> "POST" ->
      webhook_run env net request w (Return refused_response, w)
  | run_unreadable :
      webhook_run env net request w (Throw SyntaxError, w)
  | run_ignored :
      webhook_run env net request w (Return ok_response, w)
  | run_answered chatId userId text :
      webhook_run env net request w
        (acknowledged env net chatId text, answered env chatId userId text w)
  | run_listing_thrown userId e :
      webhook_run env net request w
        (Throw e, log (membership_query env userId) w)
  | run_issued chatId userId info :
      truthy_str (fileId info) = true ->
      truthy_str (fileName info) = true ->
      js_gt (fileSize info) MAX_FILE_SIZE = false ->
      webhook_run env net request w
        (acknowledged env net chatId
           (link_ready_text (link_of env (pretty userId) (randomUUID net))),
         issued env net chatId userId info w).

(** The response [serveFile] builds from the upstream one. *)
Definition relayed (meta : FileInfo) (upstream : Response) : Response :=
  {| status := status upstream; statusText := statusText upstream;
     headers :=
       Headers_set "Content-Disposition"
         ("attachment; filename=" +:+ dquote
          +:+ encodeURIComponent (str_ToString (fileName meta)) +:+ dquote)
         (headers upstream);
     body := body upstream |}.

(** The ways a run of [serveFile] from the world [w] can end.  From the
    third on, the key of the request holds a text; from the fourth on, that
    text is read as [meta] and the file of [meta] has been asked for. *)
Inductive serve_run (env : config) (net : outside) (userId token : option string)
    (w : world) : completion Response * world -> Prop :=
  | serve_missing :
      serve_run env net userId token w (Return missing_response, w)
  | serve_forbidden :
      serve_run env net userId token w (Return forbidden_response, w)
  | serve_thrown e :
      serve_run env net userId token w (Throw e, w)
  | serve_unresolved meta :
      LINKS_KV w !! key_of (str_ToString userId) (str_ToString token)
      = Some (Encodes meta) ->
      serve_run env net userId token w
        (Return bad_gateway_response,
         {| LINKS_KV :=
              delete (key_of (str_ToString userId) (str_ToString token)) (LINKS_KV w);
            calls := calls w ++ [file_query env (fileId meta)] |})
  | serve_unreachable meta url :
      LINKS_KV w !! key_of (str_ToString userId) (str_ToString token)
      = Some (Encodes meta) ->
      fst (getTelegramFileLink env net (fileId meta) w) = Return (Some url) ->
      download net url = None ->
      serve_run env net userId token w
        (Throw NetworkError, log (Get url) (log (file_query env (fileId meta)) w))
  | serve_bad_status meta url upstream :
      LINKS_KV w !! key_of (str_ToString userId) (str_ToString token)
      = Some (Encodes meta) ->
      fst (getTelegramFileLink env net (fileId meta) w) = Return (Some url) ->
      download net url = Some upstream ->
      ~ 200 <= status upstream <= 599 ->
      serve_run env net userId token w
        (Throw RangeError, log (Get url) (log (file_query env (fileId meta)) w))
  | serve_relayed meta url upstream :
      LINKS_KV w !! key_of (str_ToString userId) (str_ToString token)
      = Some (Encodes meta) ->
      fst (getTelegramFileLink env net (fileId meta) w) = Return (Some url) ->
      download net url = Some upstream ->
      serve_run env net userId token w
        (Return (relayed meta upstream),
         log (Get url) (log (file_query env (fileId meta)) w)).

(** A text as the worker writes it: a record with an identifier and a
    name. *)
Definition written_by_worker (t : kv_text) : Prop :=
  match t with
  | Encodes meta =>
      truthy_str (fileId meta) = true /\ truthy_str (fileName meta) = true
  | EmptyText | Malformed | NullText => False
  end.

(** Every text of the namespace is as the worker writes it. *)
Definition well_formed_store (kv : gmap string kv_text) : Prop :=
  map_Forall (fun _ t => written_by_worker t) kv.

(** The fetch events of the worker, handled one after the other, each with
    the answers the outside world gives at that time. *)
Fixpoint handle_all (env : config) (events : list (outside * Request)) (w : world)
    : world :=
  match events with
  | [] => w
  | (net, request) :: events =>
      handle_all env events (snd (handleRequest env net request w))
  end.

(** A character that [encodeURIComponent] can put out. *)
Definition encoded_char (c : Ascii.ascii) : bool :=
  uri_unreserved c
  || bool_decide (c ∈ ["%"; "A"; "B"; "C"; "D"; "E"; "F"]%char).

Fixpoint all_chars (P : Ascii.ascii -> bool) (s : string) : bool :=
  match s with
  | EmptyString => true
  | String c s => P c && all_chars P s
  end.

(** * Properties of the worker *)

(** ** Running the helpers *)

Section Helpers.
Context (env : config) (net : outside).

Lemma sendTelegramMessage_run (chatId : Z) (text : string) (w : world) :
  sendTelegramMessage env net chatId text w
  = (acknowledged env net chatId text, log (reply env chatId text) w).
Proof.
  unfold sendTelegramMessage, acknowledged, fetch_post, reply, sendMessage_body.
  run. destruct (post net _ _); reflexivity.
Qed.

(** The membership check always returns, its value does not depend on the
    world, and it sends exactly its query. *)
Lemma isUserMember_run (userId : Z) :
  exists member, forall w,
    isUserMember env net userId w
    = (Return member, log (membership_query env userId) w).
Proof.
  unfold isUserMember, fetch_json, membership_query, prop. run.
  destruct (api net _) as [| |data]; run; try (eexists; reflexivity).
  destruct data as [|b|n|s|items|fields]; run; try (eexists; reflexivity).
  destruct (truthy (field "ok" fields)); run; try (eexists; reflexivity).
  destruct (field "result" fields) as [[|b|n|s|items|rf]|]; run;
    eexists; reflexivity.
Qed.

(** The file resolver always returns, its value does not depend on the
    world, it sends exactly its query, and a URL it returns is not empty. *)
Lemma getTelegramFileLink_run (fileId : option string) :
  exists url,
    (url = None \/ truthy_str url = true)
    /\ forall w,
         getTelegramFileLink env net fileId w
         = (Return url, log (file_query env fileId) w).
Proof.
  unfold getTelegramFileLink, fetch_json, file_query, prop. run.
  destruct (api net _) as [| |data]; run; try (eexists; split; [by left|done]).
  destruct data as [|b|n|s|items|fields]; run;
    try (eexists; split; [by left|done]).
  destruct (truthy (field "ok" fields)); run;
    try (eexists; split; [by left|done]).
  destruct (field "result" fields) as [[|b|n|s|items|rf]|]; run;
    try (eexists; split; [by left|done]);
    (eexists; split; last done; by right).
Qed.

(** An attachment with an identifier always comes out with a name. *)
Lemma extractFileInfo_named (m : Message) :
  truthy_str (fileId (extractFileInfo m)) = true ->
  truthy_str (fileName (extractFileInfo m)) = true.
Proof.
  unfold extractFileInfo.
  destruct (match document m, video m, audio m with
            | Some file, _, _ | None, Some file, _ | None, None, Some file =>
                Some file
            | None, None, None => photo m ?. last
            end) as [file|]; [|done].
  intros _. cbn. destruct (truthy_str (file_name file)) eqn:Hname; [done|].
  by destruct (present (video m)), (present (audio m)).
Qed.

(** A well-formed inbound message gets as far as the membership check, and
    the handler goes on from its result. *)
Lemma webhook_inbound request m chatId userId w :
  inbound request m chatId userId ->
  handleTelegramWebhook env net request w
  = let w1 := log (membership_query env userId) w in
    if negb (passes_membership env net userId w) then
      sendTelegramMessage env net chatId (join_text env) w1
    else if truthy_str (text m)
            && String.eqb (str_ToString (text m)) "/start" then
      sendTelegramMessage env net chatId
        "👋 Hi! Send me a file (up to 20MB), and I will generate a direct download link for you." w1
    else if truthy_str (text m)
            && String.prefix "/links" (str_ToString (text m)) then
      sendUserLinks env net chatId userId w1
    else
      let info := extractFileInfo m in
      if negb (truthy_str (fileId info)) || negb (truthy_str (fileName info)) then
        sendTelegramMessage env net chatId invalid_file_text w1
      else if js_gt (fileSize info) MAX_FILE_SIZE then
        sendTelegramMessage env net chatId too_large_text w1
      else
        (_ ← KV_put (key_of (pretty userId) (randomUUID net))
               (JSON_stringify info);
         sendTelegramMessage env net chatId
           (link_ready_text (link_of env (pretty userId) (randomUUID net)))) w1.
Proof.
  intros [Hmethod Hpayload Hchat Hfrom Hchat0 Huser0].
  unfold handleTelegramWebhook, passes_membership.
  rewrite Hmethod, Hpayload. cbn. rewrite Hchat, Hfrom.
  apply Z.eqb_neq in Hchat0, Huser0. rewrite Hchat0, Huser0. cbn.
  destruct (isUserMember_run userId) as [member Hmember].
  unfold mbind at 1, M_bind at 1. rewrite !Hmember. cbn.
  repeat match goal with
         | |- context [if ?b then _ else _] => destruct b; cbn
         end; reflexivity.
Qed.

End Helpers.

(** ** The webhook handler *)

Section Webhook.
Context (env : config) (net : outside).

(** A sender who fails the membership check is told to join, and nothing
    else happens. *)
Lemma webhook_stranger request m chatId userId w :
  inbound request m chatId userId ->
  passes_membership env net userId w = false ->
  handleTelegramWebhook env net request w
  = (acknowledged env net chatId (join_text env),
     answered env chatId userId (join_text env) w).
Proof.
  intros Hin Hout. rewrite (webhook_inbound _ _ _ _ _ _ _ Hin), Hout. cbn.
  rewrite sendTelegramMessage_run. unfold answered, log. cbn.
  by rewrite <- app_assoc.
Qed.

(** A file message within the ceiling has its link issued. *)
Lemma webhook_issue request m chatId userId w :
  file_message env net request m chatId userId w ->
  js_gt (fileSize (extractFileInfo m)) MAX_FILE_SIZE = false ->
  handleTelegramWebhook env net request w
  = (acknowledged env net chatId
       (link_ready_text (link_of env (pretty userId) (randomUUID net))),
     issued env net chatId userId (extractFileInfo m) w).
Proof.
  intros [Hin Hmember Hcommand Hid] Hsize.
  pose proof (extractFileInfo_named m Hid) as Hname.
  rewrite (webhook_inbound _ _ _ _ _ _ _ Hin), Hmember. cbn.
  unfold is_command in Hcommand.
  destruct (truthy_str (text m)); cbn in *.
  - apply orb_false_iff in Hcommand as [-> ->].
    rewrite Hid, Hname, Hsize. run.
    rewrite sendTelegramMessage_run. unfold issued, log. cbn.
    by rewrite <- app_assoc.
  - rewrite Hid, Hname, Hsize. run.
    rewrite sendTelegramMessage_run. unfold issued, log. cbn.
    by rewrite <- app_assoc.
Qed.

(** A file message above the ceiling is turned down. *)
Lemma webhook_too_large request m chatId userId w :
  file_message env net request m chatId userId w ->
  js_gt (fileSize (extractFileInfo m)) MAX_FILE_SIZE = true ->
  handleTelegramWebhook env net request w
  = (acknowledged env net chatId too_large_text,
     answered env chatId userId too_large_text w).
Proof.
  intros [Hin Hmember Hcommand Hid] Hsize.
  pose proof (extractFileInfo_named m Hid) as Hname.
  rewrite (webhook_inbound _ _ _ _ _ _ _ Hin), Hmember. cbn.
  unfold is_command in Hcommand.
  destruct (truthy_str (text m)); cbn in *.
  - apply orb_false_iff in Hcommand as [-> ->].
    rewrite Hid, Hname, Hsize. cbn.
    rewrite sendTelegramMessage_run. unfold answered, log. cbn.
    by rewrite <- app_assoc.
  - rewrite Hid, Hname, Hsize. cbn.
    rewrite sendTelegramMessage_run. unfold answered, log. cbn.
    by rewrite <- app_assoc.
Qed.

End Webhook.

Section WebhookClaims.
Context (env : config) (net : outside).

(** C1.  For a file message from a member whose extracted size is a number:
    at exactly 20*1024*1024 bytes the handler stores the Link Record and
    replies with the link; at any size strictly greater it replies with the
    size-rejection text, leaves the Link Store as it was, and stops.  The
    ceiling is inclusive. *)
Theorem size_ceiling_inclusive request m chatId userId size w :
  file_message env net request m chatId userId w ->
  fileSize (extractFileInfo m) = Some size ->
  (size = 20 * 1024 * 1024 ->
   handleTelegramWebhook env net request w
   = (acknowledged env net chatId
        (link_ready_text (link_of env (pretty userId) (randomUUID net))),
      issued env net chatId userId (extractFileInfo m) w))
  /\ (size > 20 * 1024 * 1024 ->
      handleTelegramWebhook env net request w
      = (acknowledged env net chatId too_large_text,
         answered env chatId userId too_large_text w)
      /\ LINKS_KV (snd (handleTelegramWebhook env net request w)) = LINKS_KV w).
Proof.
  intros Hfile Hsize. split; intros Hcmp.
  - apply webhook_issue; [done|]. rewrite Hsize. cbn.
    unfold MAX_FILE_SIZE. rewrite Z.gtb_ltb. apply Z.ltb_ge. lia.
  - assert (handleTelegramWebhook env net request w
            = (acknowledged env net chatId too_large_text,
               answered env chatId userId too_large_text w)) as ->; [|done].
    apply (webhook_too_large env net request m); [done|]. rewrite Hsize. cbn.
    unfold MAX_FILE_SIZE. rewrite Z.gtb_ltb. apply Z.ltb_lt. lia.
Qed.

(** C4.  For a well-formed inbound message whose sender fails the
    membership check, whatever the message holds, the handler sends the
    membership instruction and nothing else, and the Link Store is as it
    was. *)
Theorem stranger_is_told_to_join request m chatId userId w :
  inbound request m chatId userId ->
  passes_membership env net userId w = false ->
  let after := snd (handleTelegramWebhook env net request w) in
  fst (handleTelegramWebhook env net request w)
  = acknowledged env net chatId (join_text env)
  /\ calls after
     = (calls w ++ [membership_query env userId; reply env chatId (join_text env)])%list
  /\ LINKS_KV after = LINKS_KV w.
Proof.
  intros Hin Hout. cbn. by rewrite (webhook_stranger env net _ _ _ _ _ Hin Hout).
Qed.

(** C9.  For a file message from a member within the size ceiling, the
    handler stores under [user:<userId>:<token>], for the token that
    [crypto.randomUUID()] gave, exactly the record [{fileId, fileName,
    fileSize}] extracted from the message, and the reply it sends contains
    the configured base URL followed by [/file/<userId>/<token>] for that
    token. *)
Theorem link_is_stored_and_sent request m chatId userId size w :
  file_message env net request m chatId userId w ->
  fileSize (extractFileInfo m) = Some size ->
  size <= MAX_FILE_SIZE ->
  let token := randomUUID net in
  let after := snd (handleTelegramWebhook env net request w) in
  LINKS_KV after
  = <["user:" +:+ pretty userId +:+ ":" +:+ token := Encodes (extractFileInfo m)]>
      (LINKS_KV w)
  /\ exists text,
       calls after
       = (calls w ++ [membership_query env userId; reply env chatId text])%list
       /\ contains (WORKER_DOMAIN env +:+ "/file/" +:+ pretty userId +:+ "/" +:+ token)
            text.
Proof.
  intros Hfile Hsize Hle. cbn.
  rewrite (webhook_issue env net _ _ _ _ _ Hfile).
  - split; [done|]. eexists. split; [done|].
    exists ("✅ Your download link is ready:" +:+ nl +:+ "`"),
      ("`" +:+ nl +:+ nl
       +:+ "⚠️ This is a direct link from Telegram and may expire after a while.").
    reflexivity.
  - rewrite Hsize. cbn. rewrite Z.gtb_ltb. by apply Z.ltb_ge.
Qed.

(** C10.  When the extracted attachment has no [file_size], the size check
    does not reject the message: the Link Record is created, and its
    [fileSize] is absent. *)
Theorem absent_size_passes_ceiling request m chatId userId file w :
  file_message env net request m chatId userId w ->
  selected_file m = Some file ->
  file_size file = None ->
  let key := "user:" +:+ pretty userId +:+ ":" +:+ randomUUID net in
  let after := snd (handleTelegramWebhook env net request w) in
  js_gt (fileSize (extractFileInfo m)) MAX_FILE_SIZE = false
  /\ exists record,
       LINKS_KV after !! key = Some (Encodes record)
       /\ fileId record = file_id file
       /\ fileSize record = None.
Proof.
  intros Hfile Hselected Hsize. cbn.
  assert (extractFileInfo m
          = {| fileId := file_id file;
               fileName := fileName (extractFileInfo m);
               fileSize := None |}) as Hinfo.
  { unfold extractFileInfo. fold (selected_file m). rewrite Hselected. cbn.
    by rewrite Hsize. }
  assert (js_gt (fileSize (extractFileInfo m)) MAX_FILE_SIZE = false) as Hgt.
  { by rewrite Hinfo. }
  split; [done|].
  rewrite (webhook_issue env net _ _ _ _ _ Hfile Hgt). cbn.
  exists (extractFileInfo m). split.
  - apply lookup_insert_eq.
  - by rewrite Hinfo.
Qed.

End WebhookClaims.

Lemma size_ceiling_inclusive_witness :
  handleTelegramWebhook sample_env (sample_net "member")
    (webhook_request (document_message (Some 20971520))) empty_world
  = (Return (text_Response "OK" 200),
     issued sample_env (sample_net "member") 42 42
       {| fileId := Some "abc"; fileName := Some "report.pdf";
          fileSize := Some 20971520 |} empty_world)
  /\ LINKS_KV (snd (handleTelegramWebhook sample_env (sample_net "member")
                      (webhook_request (document_message (Some 20971521)))
                      empty_world))
     = ∅.
Proof.
  split.
  - apply (size_ceiling_inclusive sample_env (sample_net "member")
             (webhook_request (document_message (Some 20971520)))
             (document_message (Some 20971520)) 42 42 20971520 empty_world).
    + split; [split|..]; first [reflexivity | lia | vm_compute; reflexivity].
    + reflexivity.
    + reflexivity.
  - apply (proj2 (size_ceiling_inclusive sample_env (sample_net "member")
                    (webhook_request (document_message (Some 20971521)))
                    (document_message (Some 20971521)) 42 42 20971521 empty_world
                    ltac:(split; [split|..];
                          first [reflexivity | lia | vm_compute; reflexivity])
                    eq_refl)).
    lia.
Defined.

(** ** The file-serving handler *)

Section ServeFile.
Context (env : config) (net : outside).

Lemma truthy_str_Some (s : string) : truthy_str (Some s) = true <-> s <> EmptyString.
Proof.
  cbn. rewrite negb_true_iff. apply String.eqb_neq.
Qed.

Lemma serveFile_missing userId token w :
  truthy_str userId = false \/ truthy_str token = false ->
  serveFile env net userId token w = (Return missing_response, w).
Proof.
  unfold serveFile. intros [-> | ->]; [done|]. by rewrite orb_true_r.
Qed.

(** With both parts of the path present, the handler looks the key up. *)
Lemma serveFile_lookup u t w :
  u <> EmptyString -> t <> EmptyString ->
  serveFile env net (Some u) (Some t) w
  = match LINKS_KV w !! key_of u t with
    | None | Some EmptyText => (Return forbidden_response, w)
    | Some Malformed => (Throw SyntaxError, w)
    | Some NullText => (Throw TypeError, w)
    | Some (Encodes meta) =>
        (telegramFileUrl ← getTelegramFileLink env net (fileId meta);
         if negb (truthy_str telegramFileUrl) then
           _ ← KV_delete (key_of u t);
           mret bad_gateway_response
         else
           fileResponse ← fetch net (str_ToString telegramFileUrl);
           new_Response (body fileResponse) (status fileResponse)
             (statusText fileResponse)
             (Headers_set "Content-Disposition"
                ("attachment; filename=" +:+ dquote
                 +:+ encodeURIComponent (str_ToString (fileName meta)) +:+ dquote)
                (headers fileResponse))) w
    end.
Proof.
  intros Hu%truthy_str_Some Ht%truthy_str_Some.
  unfold serveFile. rewrite Hu, Ht. cbn [negb orb str_ToString].
  fold (key_of u t). unfold mbind at 1, M_bind at 1, KV_get at 1.
  destruct (LINKS_KV w !! key_of u t) as [[| |meta|]|]; reflexivity.
Qed.

Lemma serveFile_unknown u t w :
  u <> EmptyString -> t <> EmptyString ->
  LINKS_KV w !! key_of u t = None ->
  serveFile env net (Some u) (Some t) w = (Return forbidden_response, w).
Proof.
  intros Hu Ht Hkey. by rewrite serveFile_lookup, Hkey.
Qed.

(** A stored record whose file no longer resolves is deleted. *)
Lemma serveFile_unresolved u t meta w :
  u <> EmptyString -> t <> EmptyString ->
  LINKS_KV w !! key_of u t = Some (Encodes meta) ->
  fst (getTelegramFileLink env net (fileId meta) w) = Return None ->
  serveFile env net (Some u) (Some t) w
  = (Return bad_gateway_response,
     {| LINKS_KV := delete (key_of u t) (LINKS_KV w);
        calls := calls w ++ [file_query env (fileId meta)] |}).
Proof.
  intros Hu Ht Hkey Hnone. rewrite serveFile_lookup, Hkey by done.
  destruct (getTelegramFileLink_run env net (fileId meta)) as (url & _ & Hrun).
  rewrite Hrun in Hnone. cbn in Hnone. injection Hnone as ->.
  unfold mbind at 1, M_bind at 1. rewrite Hrun. reflexivity.
Qed.

(** A stored record whose file resolves is fetched and relayed. *)
Lemma serveFile_resolved u t meta url w :
  u <> EmptyString -> t <> EmptyString ->
  LINKS_KV w !! key_of u t = Some (Encodes meta) ->
  fst (getTelegramFileLink env net (fileId meta) w) = Return (Some url) ->
  serveFile env net (Some u) (Some t) w
  = let w2 := log (Get url) (log (file_query env (fileId meta)) w) in
    match download net url with
    | None => (Throw NetworkError, w2)
    | Some fileResponse =>
        new_Response (body fileResponse) (status fileResponse)
          (statusText fileResponse)
          (Headers_set "Content-Disposition"
             ("attachment; filename=" +:+ dquote
              +:+ encodeURIComponent (str_ToString (fileName meta)) +:+ dquote)
             (headers fileResponse)) w2
    end.
Proof.
  intros Hu Ht Hkey Hsome. rewrite serveFile_lookup, Hkey by done.
  destruct (getTelegramFileLink_run env net (fileId meta)) as (found & Hfound & Hrun).
  rewrite Hrun in Hsome. cbn in Hsome. injection Hsome as ->.
  destruct Hfound as [?|Hfound]; [done|].
  unfold mbind at 1, M_bind at 1. rewrite Hrun, Hfound. cbn [negb str_ToString].
  unfold fetch. run. destruct (download net url); reflexivity.
Qed.

End ServeFile.

(** ** Headers *)

Section Headers.

Lemma same_name_refl a : same_name a a = true.
Proof. apply String.eqb_refl. Qed.

Lemma same_name_apart a b c :
  same_name a b = true -> same_name c b = false -> same_name a c = false.
Proof.
  unfold same_name. intros Hab%String.eqb_eq Hcb. rewrite Hab.
  by rewrite String.eqb_sym.
Qed.

Lemma filter_none {A} (P : A -> bool) (l : list A) :
  List.filter P (List.filter (fun x => negb (P x)) l) = [].
Proof.
  induction l as [|x l IH]; [done|]. cbn.
  destruct (P x) eqn:HP; cbn; [done|]. by rewrite HP.
Qed.

Lemma filter_through {A} (P Q : A -> bool) (l : list A) :
  (forall x, P x = true -> Q x = true) ->
  List.filter P (List.filter Q l) = List.filter P l.
Proof.
  intros HPQ. induction l as [|x l IH]; [done|]. cbn.
  destruct (Q x) eqn:HQ; cbn.
  - by rewrite IH.
  - destruct (P x) eqn:HP; [|done]. apply HPQ in HP. congruence.
Qed.

(** After [set], [get] of that name gives the value alone. *)
Lemma Headers_get_set name value hs :
  Headers_get name (Headers_set name value hs) = Some value.
Proof.
  unfold Headers_get. induction hs as [|h hs IH]; cbn -[same_name].
  - by rewrite same_name_refl.
  - destruct (same_name (fst h) name) eqn:Hh; cbn -[same_name]; rewrite Hh; [|done].
    by rewrite (filter_none (fun h => same_name (fst h) name)).
Qed.

(** [set] leaves the headers of every other name as they were. *)
Lemma Headers_get_set_other other name value hs :
  same_name other name = false ->
  Headers_get other (Headers_set name value hs) = Headers_get other hs.
Proof.
  intros Hother. unfold Headers_get.
  assert (List.filter (fun h => same_name (fst h) other) (Headers_set name value hs)
          = List.filter (fun h => same_name (fst h) other) hs) as ->; [|done].
  induction hs as [|h hs IH]; cbn -[same_name].
  - destruct (same_name name other) eqn:Hno; [|done].
    unfold same_name in *. rewrite String.eqb_sym in Hno. congruence.
  - destruct (same_name (fst h) name) eqn:Hh; cbn -[same_name].
    + rewrite (same_name_apart _ _ _ Hh Hother).
      apply filter_through. intros x Hx.
      destruct (same_name (fst x) name) eqn:Hxn; [|done].
      by rewrite (same_name_apart _ _ _ Hxn Hother) in Hx.
    + by rewrite IH.
Qed.

End Headers.

Section ServeFileClaims.
Context (env : config) (net : outside).

(** C2.  The file-serving handler answers 400 when the user id or the token
    is missing, 403 when both are there and the key [user:<userId>:<token>]
    is not in the Link Store, 502 when the key holds a record whose file
    identifier does not resolve upstream; and a response it returns is one
    of these three or the relayed upstream response. *)
Theorem serveFile_error_statuses userId token w :
  (truthy_str userId = false \/ truthy_str token = false ->
   exists r, fst (serveFile env net userId token w) = Return r /\ status r = 400)
  /\ (forall u t,
        userId = Some u -> token = Some t -> u <> EmptyString -> t <> EmptyString ->
        LINKS_KV w !! ("user:" +:+ u +:+ ":" +:+ t) = None ->
        exists r, fst (serveFile env net userId token w) = Return r /\ status r = 403)
  /\ (forall u t meta,
        userId = Some u -> token = Some t -> u <> EmptyString -> t <> EmptyString ->
        LINKS_KV w !! ("user:" +:+ u +:+ ":" +:+ t) = Some (Encodes meta) ->
        fst (getTelegramFileLink env net (fileId meta) w) = Return None ->
        exists r, fst (serveFile env net userId token w) = Return r /\ status r = 502)
  /\ (forall r,
        fst (serveFile env net userId token w) = Return r ->
        r = missing_response \/ r = forbidden_response \/ r = bad_gateway_response
        \/ exists url upstream,
             download net url = Some upstream
             /\ status r = status upstream /\ body r = body upstream).
Proof.
  split; [|split; [|split]].
  - intros Hmissing. rewrite serveFile_missing by done. by eexists.
  - intros u t -> -> Hu Ht Hkey. rewrite serveFile_unknown by done. by eexists.
  - intros u t meta -> -> Hu Ht Hkey Hnone.
    rewrite (serveFile_unresolved env net u t meta) by done. by eexists.
  - intros r Hr.
    destruct (truthy_str userId) eqn:Hu; cycle 1.
    { rewrite serveFile_missing in Hr by auto. injection Hr as <-. auto. }
    destruct (truthy_str token) eqn:Ht; cycle 1.
    { rewrite serveFile_missing in Hr by auto. injection Hr as <-. auto. }
    destruct userId as [u|]; [|done]. destruct token as [t|]; [|done].
    apply truthy_str_Some in Hu, Ht.
    destruct (LINKS_KV w !! key_of u t) as [[| |meta|]|] eqn:Hkey.
    + rewrite serveFile_lookup, Hkey in Hr by done. injection Hr as <-. auto.
    + rewrite serveFile_lookup, Hkey in Hr by done. done.
    + destruct (getTelegramFileLink_run env net (fileId meta))
        as (found & _ & Hrun).
      destruct found as [url|].
      * rewrite (serveFile_resolved env net u t meta url) in Hr;
          [|done..|by rewrite Hrun].
        cbn in Hr. destruct (download net url) as [upstream|] eqn:Hdown; [|done].
        unfold new_Response in Hr.
        destruct ((200 <=? status upstream) && (status upstream <=? 599));
          [|done].
        injection Hr as <-. right. right. right. by exists url, upstream.
      * rewrite (serveFile_unresolved env net u t meta) in Hr;
          [|done..|by rewrite Hrun].
        injection Hr as <-. auto.
    + rewrite serveFile_lookup, Hkey in Hr by done. done.
    + rewrite serveFile_unknown in Hr by done. injection Hr as <-. auto.
Qed.

(** C3.  When the file of a stored Link Record fails to resolve during a
    serve, the record is gone from the Link Store once the 502 response is
    returned, and serving the same user id and token again gives the same
    403 response as serving a token that was never issued. *)
Theorem failed_resolution_forgets_link u t meta w :
  u <> EmptyString -> t <> EmptyString ->
  LINKS_KV w !! ("user:" +:+ u +:+ ":" +:+ t) = Some (Encodes meta) ->
  fst (getTelegramFileLink env net (fileId meta) w) = Return None ->
  let after := snd (serveFile env net (Some u) (Some t) w) in
  fst (serveFile env net (Some u) (Some t) w) = Return bad_gateway_response
  /\ LINKS_KV after = delete ("user:" +:+ u +:+ ":" +:+ t) (LINKS_KV w)
  /\ forall later never_issued : world,
       forall net' : outside,
       LINKS_KV later = LINKS_KV after ->
       LINKS_KV never_issued !! ("user:" +:+ u +:+ ":" +:+ t) = None ->
       fst (serveFile env net' (Some u) (Some t) later) = Return forbidden_response
       /\ fst (serveFile env net' (Some u) (Some t) later)
          = fst (serveFile env net' (Some u) (Some t) never_issued).
Proof.
  intros Hu Ht Hkey Hnone. cbn.
  rewrite (serveFile_unresolved env net u t meta) by done. cbn.
  split; [done|]. split; [done|].
  intros later never_issued net' Hlater Hnever.
  rewrite !serveFile_unknown; try done.
  rewrite Hlater. apply lookup_delete_eq.
Qed.

(** The relayed response, for any store that holds the record. *)
Lemma served_file_is_relayed_gen u t meta name url upstream w :
  u <> EmptyString -> t <> EmptyString ->
  LINKS_KV w !! key_of u t = Some (Encodes meta) ->
  fileName meta = Some name ->
  fst (getTelegramFileLink env net (fileId meta) w) = Return (Some url) ->
  download net url = Some upstream ->
  200 <= status upstream <= 599 ->
  exists r,
    fst (serveFile env net (Some u) (Some t) w) = Return r
    /\ body r = body upstream
    /\ status r = status upstream
    /\ statusText r = statusText upstream
    /\ (forall other,
          same_name other "Content-Disposition" = false ->
          Headers_get other (headers r) = Headers_get other (headers upstream))
    /\ Headers_get "Content-Disposition" (headers r)
       = Some (content_disposition name).
Proof.
  intros Hu Ht Hkey Hname Hurl Hdown [Hlo Hhi].
  rewrite (serveFile_resolved env net u t meta url) by done.
  cbn. rewrite Hdown, Hname. unfold new_Response. cbn.
  apply Z.leb_le in Hlo, Hhi. rewrite Hlo, Hhi. cbn.
  eexists. split; [done|]. cbn. repeat split.
  - intros other Hother. by apply Headers_get_set_other.
  - apply Headers_get_set.
Qed.

(** C8.  When a stored Link Record is served and its file resolves and
    downloads, the response carries the upstream body as it is, the
    upstream status code and status text, every upstream header other than
    Content-Disposition, and a Content-Disposition that is an attachment
    disposition with the stored file name percent-encoded. *)
Theorem served_file_is_relayed u t meta name url upstream w :
  u <> EmptyString -> t <> EmptyString ->
  LINKS_KV w !! ("user:" +:+ u +:+ ":" +:+ t) = Some (Encodes meta) ->
  fileName meta = Some name ->
  fst (getTelegramFileLink env net (fileId meta) w) = Return (Some url) ->
  download net url = Some upstream ->
  200 <= status upstream <= 599 ->
  exists r,
    fst (serveFile env net (Some u) (Some t) w) = Return r
    /\ body r = body upstream
    /\ status r = status upstream
    /\ statusText r = statusText upstream
    /\ (forall other,
          same_name other "Content-Disposition" = false ->
          Headers_get other (headers r) = Headers_get other (headers upstream))
    /\ Headers_get "Content-Disposition" (headers r)
       = Some ("attachment; filename=" +:+ dquote +:+ encodeURIComponent name
               +:+ dquote).
Proof.
  intros Hu Ht Hkey Hname Hurl Hdown Hstatus.
  by apply (served_file_is_relayed_gen u t meta name url upstream w).
Qed.

End ServeFileClaims.

Lemma stranger_is_told_to_join_witness :
  let request := webhook_request (sample_message (Some "/start") None None) in
  let run := handleTelegramWebhook sample_env (sample_net "left") request empty_world in
  fst run = Return (text_Response "OK" 200)
  /\ calls (snd run)
     = [membership_query sample_env 42; reply sample_env 42 (join_text sample_env)]
  /\ LINKS_KV (snd run) = ∅.
Proof.
  apply (stranger_is_told_to_join sample_env (sample_net "left")
           (webhook_request (sample_message (Some "/start") None None))
           (sample_message (Some "/start") None None) 42 42 empty_world).
  - split; first [reflexivity | lia].
  - vm_compute. reflexivity.
Defined.

Lemma link_is_stored_and_sent_witness :
  let run := handleTelegramWebhook sample_env (sample_net "member")
               (webhook_request (document_message (Some 1048576))) empty_world in
  LINKS_KV (snd run)
  = <["user:42:3b241101-e2bb-4255-8caf-4136c566a962" :=
        Encodes {| fileId := Some "abc"; fileName := Some "report.pdf";
                   fileSize := Some 1048576 |}]> ∅
  /\ exists text,
       calls (snd run) = [membership_query sample_env 42; reply sample_env 42 text]
       /\ contains
            "https://f2l.example.workers.dev/file/42/3b241101-e2bb-4255-8caf-4136c566a962"
            text.
Proof.
  apply (link_is_stored_and_sent sample_env (sample_net "member")
           (webhook_request (document_message (Some 1048576)))
           (document_message (Some 1048576)) 42 42 1048576 empty_world).
  - split; [split|..]; first [reflexivity | lia | vm_compute; reflexivity].
  - reflexivity.
  - vm_compute. discriminate.
Defined.

Lemma absent_size_passes_ceiling_witness :
  let run := handleTelegramWebhook sample_env (sample_net "member")
               (webhook_request (document_message None)) empty_world in
  js_gt (fileSize (extractFileInfo (document_message None))) MAX_FILE_SIZE = false
  /\ exists record,
       LINKS_KV (snd run) !! "user:42:3b241101-e2bb-4255-8caf-4136c566a962"
       = Some (Encodes record)
       /\ fileId record = Some "abc"
       /\ fileSize record = None.
Proof.
  apply (absent_size_passes_ceiling sample_env (sample_net "member")
           (webhook_request (document_message None))
           (document_message None) 42 42 (report_pdf None) empty_world).
  - split; [split|..]; first [reflexivity | lia | vm_compute; reflexivity].
  - reflexivity.
  - reflexivity.
Defined.

Lemma serveFile_error_statuses_witness :
  (exists r, fst (serveFile sample_env failing_net None (Some sample_token) stored_world)
             = Return r /\ status r = 400)
  /\ (exists r, fst (serveFile sample_env failing_net (Some "42") (Some "never-issued")
                       stored_world)
                = Return r /\ status r = 403)
  /\ (exists r, fst (serveFile sample_env failing_net (Some "42") (Some sample_token)
                       stored_world)
                = Return r /\ status r = 502).
Proof.
  split; [|split].
  - apply (proj1 (serveFile_error_statuses sample_env failing_net
                    None (Some sample_token) stored_world)).
    left. reflexivity.
  - apply (proj1 (proj2 (serveFile_error_statuses sample_env failing_net
                           (Some "42") (Some "never-issued") stored_world))
             "42" "never-issued");
      first [reflexivity | discriminate | vm_compute; reflexivity].
  - apply (proj1 (proj2 (proj2 (serveFile_error_statuses sample_env failing_net
                                  (Some "42") (Some sample_token) stored_world)))
             "42" sample_token sample_record);
      first [reflexivity | discriminate | vm_compute; reflexivity].
Defined.

Lemma failed_resolution_forgets_link_witness :
  let run := serveFile sample_env failing_net (Some "42") (Some sample_token)
               stored_world in
  fst run = Return bad_gateway_response
  /\ LINKS_KV (snd run) = ∅
  /\ fst (serveFile sample_env (sample_net "member") (Some "42") (Some sample_token)
            (snd run))
     = fst (serveFile sample_env (sample_net "member") (Some "42") (Some sample_token)
              empty_world).
Proof.
  destruct (failed_resolution_forgets_link sample_env failing_net
              "42" sample_token sample_record stored_world)
    as (Hfirst & Hstore & Hlater);
    [discriminate | discriminate | vm_compute; reflexivity | reflexivity |].
  cbn zeta. split; [exact Hfirst|]. split.
  - rewrite Hstore. vm_compute. reflexivity.
  - apply (Hlater _ empty_world (sample_net "member")); reflexivity.
Defined.

Lemma served_file_is_relayed_witness :
  exists r,
    fst (serveFile sample_env (sample_net "member") (Some "42") (Some sample_token)
           stored_world) = Return r
    /\ body r = "hello"
    /\ status r = 200
    /\ statusText r = "OK"
    /\ (forall other,
          same_name other "Content-Disposition" = false ->
          Headers_get other (headers r) = Headers_get other (headers upstream_file))
    /\ Headers_get "Content-Disposition" (headers r)
       = Some ("attachment; filename=" +:+ dquote +:+ "annual%20report.pdf" +:+ dquote).
Proof.
  apply (served_file_is_relayed sample_env (sample_net "member")
           "42" sample_token sample_record "annual report.pdf"
           "https://api.telegram.org/file/bot123:secret/documents/file_7.pdf"
           upstream_file stored_world);
    first [discriminate | reflexivity | vm_compute; reflexivity
          | vm_compute; split; discriminate].
Defined.

(** ** The membership checker *)

Section Membership.
Context (env : config) (net : outside).

(** The checker returns [true] exactly on a reply that reports a member;
    on every other reply, on a body that is not JSON and on a failed request
    it returns a falsy value; it never throws. *)
Lemma isUserMember_verdict userId w :
  let reply :=
    api net (TELEGRAM_API_URL env +:+ "/getChatMember?chat_id=" +:+ CHANNEL_ID env
             +:+ "&user_id=" +:+ pretty userId) in
  exists member,
    fst (isUserMember env net userId w) = Return member
    /\ (member = Some (JBool true) <-> reports_member reply = true)
    /\ (reports_member reply = false -> truthy member = false).
Proof.
  cbn. unfold isUserMember, fetch_json, prop, reports_member. run.
  destruct (api net _) as [| |data]; run; try (eexists; split; [done|]; done).
  destruct data as [|b|n|s|items|fields]; run;
    try (eexists; split; [done|]; done).
  destruct (truthy (field "ok" fields)) eqn:Hok; run.
  - destruct (field "result" fields) as [[|b|n|s|items|rf]|]; run;
      try (eexists; split; [done|]; done).
    eexists. split; [done|]. split.
    + split; [by intros [= ->]|by intros ->].
    + by intros ->.
  - eexists. split; [done|]. split; [|done].
    split; [|done]. intros Hmember. by rewrite Hmember in Hok.
Qed.

(** The sender passes the check of the handler exactly on a reply that
    reports a member. *)
Lemma passes_membership_reply userId w :
  passes_membership env net userId w
  = reports_member
      (api net (TELEGRAM_API_URL env +:+ "/getChatMember?chat_id=" +:+ CHANNEL_ID env
                +:+ "&user_id=" +:+ pretty userId)).
Proof.
  unfold passes_membership.
  destruct (isUserMember_verdict userId w) as (member & -> & Htrue & Hfalse).
  cbn zeta in *. destruct (reports_member _).
  - by rewrite (proj2 Htrue).
  - by apply Hfalse.
Qed.

End Membership.


(** The hypothesis on the reply is needed: on an object that has no [ok]
    the checker returns [undefined], which is falsy but not [false]. *)
Remark isUserMember_without_ok :
  fst (isUserMember sample_env throttled_net 42 empty_world) = Return undefined
  /\ Return undefined <> Return (Some (JBool false)).
Proof.
  split; [reflexivity|discriminate].
Qed.


(** ** File extraction *)

Section Extraction.
Context (env : config) (net : outside).

(** A message without a usable attachment gets the validation error. *)
Lemma webhook_invalid request m chatId userId w :
  inbound request m chatId userId ->
  passes_membership env net userId w = true ->
  is_command m = false ->
  truthy_str (fileId (extractFileInfo m)) = false
  \/ truthy_str (fileName (extractFileInfo m)) = false ->
  handleTelegramWebhook env net request w
  = (acknowledged env net chatId invalid_file_text,
     answered env chatId userId invalid_file_text w).
Proof.
  intros Hin Hmember Hcommand Hinvalid.
  rewrite (webhook_inbound _ _ _ _ _ _ _ Hin), Hmember. cbn.
  assert (negb (truthy_str (fileId (extractFileInfo m)))
          || negb (truthy_str (fileName (extractFileInfo m))) = true) as Hor.
  { destruct Hinvalid as [-> | ->]; [done|]. by rewrite orb_true_r. }
  unfold is_command in Hcommand.
  destruct (truthy_str (text m)); cbn in *.
  - apply orb_false_iff in Hcommand as [-> ->]. rewrite Hor.
    rewrite sendTelegramMessage_run. unfold answered, log. cbn.
    by rewrite <- app_assoc.
  - rewrite Hor.
    rewrite sendTelegramMessage_run. unfold answered, log. cbn.
    by rewrite <- app_assoc.
Qed.

(** What [extractFileInfo] makes of the attachment it settles on. *)
Lemma extractFileInfo_selected m file :
  selected_file m = Some file ->
  extractFileInfo m
  = {| fileId := file_id file;
       fileName :=
         if truthy_str (file_name file) then file_name file
         else Some (if present (video m) then "video.mp4"
                    else if present (audio m) then "audio.mp3"
                    else "photo.jpg");
       fileSize := file_size file |}.
Proof.
  intros Hselected. unfold extractFileInfo. fold (selected_file m).
  by rewrite Hselected.
Qed.

Lemma extractFileInfo_nothing m :
  selected_file m = None ->
  extractFileInfo m = {| fileId := None; fileName := None; fileSize := None |}.
Proof.
  intros Hselected. unfold extractFileInfo. fold (selected_file m).
  by rewrite Hselected.
Qed.

(** In an array in ascending order of size the last variant is a largest
    one. *)
Lemma last_is_largest_when_ascending variants file :
  StronglySorted size_le variants ->
  last variants = Some file ->
  is_largest file variants.
Proof.
  induction 1 as [|x l Hsorted IH Hx]; [done|].
  intros Hlast other a b Hother Ha Hb.
  destruct l as [|y l].
  - injection Hlast as <-. apply list_elem_of_singleton in Hother as ->.
    rewrite Ha in Hb. injection Hb as ->. done.
  - change (last (y :: l) = Some file) in Hlast.
    apply elem_of_cons in Hother as [->|Hother].
    + rewrite Forall_forall in Hx. eapply (Hx file); [|done..].
      apply last_Some in Hlast as [l' ->]. set_solver.
    + by eapply IH.
Qed.

(** C5, amended.  Extraction takes the document if there is one, else the
    video, else the audio, else the last photo variant of the array (a
    largest one when the array is in ascending order of size).  The name is
    the attachment's own when it has a non-empty one; otherwise it is
    "video.mp4" for the video, "audio.mp3" for the audio and "photo.jpg" for
    the photo.  When none of the four is there, the handler replies with
    the validation error and stops. *)
Theorem extraction_order (m : Message) :
  (forall d, document m = Some d -> extracted_from m d)
  /\ (document m = None ->
      forall v, video m = Some v ->
        extracted_from m v
        /\ (unnamed v -> fileName (extractFileInfo m) = Some "video.mp4"))
  /\ (document m = None -> video m = None ->
      forall a, audio m = Some a ->
        extracted_from m a
        /\ (unnamed a -> fileName (extractFileInfo m) = Some "audio.mp3"))
  /\ (document m = None -> video m = None -> audio m = None ->
      forall variants p, photo m = Some variants -> last variants = Some p ->
        extracted_from m p
        /\ (unnamed p -> fileName (extractFileInfo m) = Some "photo.jpg")
        /\ (StronglySorted size_le variants -> is_largest p variants))
  /\ (forall file name,
        selected_file m = Some file -> file_name file = Some name ->
        name <> EmptyString ->
        fileName (extractFileInfo m) = Some name)
  /\ (document m = None -> video m = None -> audio m = None ->
      photo m ?. last = None ->
      forall request chatId userId w,
        inbound request m chatId userId ->
        passes_membership env net userId w = true ->
        is_command m = false ->
        handleTelegramWebhook env net request w
        = (acknowledged env net chatId invalid_file_text,
           answered env chatId userId invalid_file_text w)).
Proof.
  assert (forall file, selected_file m = Some file -> extracted_from m file)
    as Hfrom.
  { intros file Hfile. split; [done|]. by rewrite (extractFileInfo_selected m file). }
  assert (forall file, selected_file m = Some file -> unnamed file ->
            fileName (extractFileInfo m)
            = Some (if present (video m) then "video.mp4"
                    else if present (audio m) then "audio.mp3"
                    else "photo.jpg")) as Hdefault.
  { intros file Hfile Hunnamed. rewrite (extractFileInfo_selected m file Hfile).
    cbn. unfold unnamed in Hunnamed. by rewrite Hunnamed. }
  split; [|split; [|split; [|split; [|split]]]].
  - intros d Hd. apply Hfrom. unfold selected_file. by rewrite Hd.
  - intros Hd v Hv.
    assert (selected_file m = Some v) as Hselected.
    { unfold selected_file. by rewrite Hd, Hv. }
    split; [by apply Hfrom|]. intros Hunnamed.
    rewrite (Hdefault v) by done. by rewrite Hv.
  - intros Hd Hv a Ha.
    assert (selected_file m = Some a) as Hselected.
    { unfold selected_file. by rewrite Hd, Hv, Ha. }
    split; [by apply Hfrom|]. intros Hunnamed.
    rewrite (Hdefault a) by done. by rewrite Hv, Ha.
  - intros Hd Hv Ha variants p Hphoto Hlast.
    assert (selected_file m = Some p) as Hselected.
    { unfold selected_file. by rewrite Hd, Hv, Ha, Hphoto. }
    split; [by apply Hfrom|]. split.
    + intros Hunnamed. rewrite (Hdefault p) by done. by rewrite Hv, Ha.
    + intros Hsorted. by apply last_is_largest_when_ascending.
  - intros file name Hfile Hname Hne.
    rewrite (extractFileInfo_selected m file Hfile). cbn.
    rewrite Hname. apply truthy_str_Some in Hne. by rewrite Hne.
  - intros Hd Hv Ha Hp request chatId userId w Hin Hmember Hcommand.
    apply (webhook_invalid request m); [done..|]. left.
    rewrite extractFileInfo_nothing; [done|].
    unfold selected_file. by rewrite Hd, Hv, Ha.
Qed.

End Extraction.

Lemma last_photo_variant_not_largest :
  photo large_first_message = Some [large_variant; thumb_variant]
  /\ extracted_from large_first_message thumb_variant
  /\ ~ is_largest thumb_variant [large_variant; thumb_variant].
Proof.
  split; [reflexivity|]. split; [repeat split|].
  intros Hlargest.
  assert (90000 <= 1200) as Habsurd; [|lia].
  apply (Hlargest large_variant); [set_solver|reflexivity|reflexivity].
Qed.

Lemma extraction_order_witness :
  (extracted_from large_first_message thumb_variant
   /\ fileName (extractFileInfo large_first_message) = Some "photo.jpg")
  /\ handleTelegramWebhook sample_env (sample_net "member")
       (webhook_request (sample_message (Some "hello") None None)) empty_world
     = (Return (text_Response "OK" 200),
        answered sample_env 42 42 invalid_file_text empty_world).
Proof.
  split.
  - destruct (proj1 (proj2 (proj2 (proj2
        (extraction_order sample_env (sample_net "member") large_first_message))))
        eq_refl eq_refl eq_refl [large_variant; thumb_variant] thumb_variant
        eq_refl eq_refl) as (Hfrom & Hname & _).
    split; [exact Hfrom|]. apply Hname. reflexivity.
  - apply (proj2 (proj2 (proj2 (proj2 (proj2
        (extraction_order sample_env (sample_net "member")
           (sample_message (Some "hello") None None))))))
        eq_refl eq_refl eq_refl eq_refl
        (webhook_request (sample_message (Some "hello") None None)) 42 42
        empty_world).
    + split; first [reflexivity | lia].
    + vm_compute. reflexivity.
    + reflexivity.
Defined.

(** ** The link-listing flow *)

Section Strings.

Lemma append_assoc (a b c : string) : (a +:+ b) +:+ c = a +:+ (b +:+ c).
Proof.
  induction a as [|x a IH]; [done|].
  change (String x ((a +:+ b) +:+ c) = String x (a +:+ (b +:+ c))).
  by rewrite IH.
Qed.

Lemma append_empty_r (a : string) : a +:+ EmptyString = a.
Proof.
  induction a as [|x a IH]; [done|].
  change (String x (a +:+ EmptyString) = String x a). by rewrite IH.
Qed.

Lemma has_char_append c a b :
  has_char c (a +:+ b) = has_char c a || has_char c b.
Proof.
  induction a as [|x a IH]; [done|].
  change (has_char c (String x (a +:+ b))
          = has_char c (String x a) || has_char c b).
  cbn. by rewrite IH, orb_assoc.
Qed.

(** A piece without the separator is cut off at the separator behind it. *)
Lemma split_piece sep a b :
  has_char sep a = false ->
  split sep (a +:+ String sep b) = a :: split sep b.
Proof.
  induction a as [|x a IH]; intros Ha.
  - change (split sep (String sep b) = EmptyString :: split sep b).
    cbn. by rewrite Ascii.eqb_refl.
  - change (split sep (String x (a +:+ String sep b)) = String x a :: split sep b).
    cbn in *. apply orb_false_iff in Ha as [Hx Ha]. by rewrite Hx, IH.
Qed.

Lemma split_whole sep a : has_char sep a = false -> split sep a = [a].
Proof.
  induction a as [|x a IH]; intros Ha; [done|].
  cbn in *. apply orb_false_iff in Ha as [Hx Ha]. by rewrite Hx, IH.
Qed.

(** The decimal form of a number has no colon in it. *)
Lemma pretty_N_go_no_colon x s :
  has_char ":" s = false -> has_char ":" (pretty_N_go x s) = false.
Proof.
  revert s. induction (N.lt_wf_0 x) as [x _ IH]; intros s Hs.
  assert (x = 0 \/ 0 < x)%N as [->|Hx] by lia.
  - by rewrite pretty_N_go_0.
  - rewrite pretty_N_go_step by done. apply IH.
    { by apply N.div_lt. }
    cbn. rewrite Hs. unfold pretty_N_char. by repeat case_match.
Qed.

Lemma pretty_no_colon (z : Z) : has_char ":" (pretty z) = false.
Proof.
  assert (forall p : positive, has_char ":" (pretty p) = false) as Hpos.
  { intros p. unfold pretty, pretty_positive, pretty, pretty_N.
    case_decide; [done|]. by apply pretty_N_go_no_colon. }
  destruct z as [|p|p]; [done|apply Hpos|].
  change (has_char ":" ("-" +:+ pretty p) = false).
  rewrite has_char_append. by rewrite Hpos.
Qed.


End Strings.

Section Listing.
Context (env : config) (net : outside).

(** A listed key starts with the prefix and is in the namespace. *)
Lemma list_keys_listed prefix (kv : gmap string kv_text) name :
  name ∈ list_keys prefix kv ->
  String.prefix prefix name = true /\ is_Some (kv !! name).
Proof.
  unfold list_keys. intros Hname.
  apply list_elem_of_lookup in Hname as [i Hname].
  apply lookup_take_Some in Hname as [Hname _].
  apply list_elem_of_lookup_2 in Hname.
  rewrite merge_sort_Permutation in Hname.
  apply list_elem_of_In, filter_In in Hname as [Hname Hprefix].
  split; [done|].
  by apply elem_of_dom, elem_of_elements, list_elem_of_In.
Qed.

(** One turn of the loop of the listing. *)
Lemma sendUserLinks_loop_step userId name keys message w :
  sendUserLinks_loop env userId (name :: keys) message w
  = match LINKS_KV w !! name with
    | None | Some EmptyText => sendUserLinks_loop env userId keys message w
    | Some Malformed => (Throw SyntaxError, w)
    | Some NullText => (Throw TypeError, w)
    | Some (Encodes meta) =>
        sendUserLinks_loop env userId keys
          (message +:+ link_line env userId name meta) w
    end.
Proof.
  cbn [sendUserLinks_loop]. unfold mbind at 1, M_bind at 1, KV_get at 1.
  destruct (LINKS_KV w !! name) as [[| |meta|]|]; reflexivity.
Qed.

(** The loop appends the lines of its keys, as long as every value that
    is there and not empty is read as a record. *)
Lemma sendUserLinks_loop_run userId keys message w :
  (forall name, name ∈ keys ->
     LINKS_KV w !! name <> Some Malformed /\ LINKS_KV w !! name <> Some NullText) ->
  sendUserLinks_loop env userId keys message w
  = (Return (message +:+ listing env userId (LINKS_KV w) keys), w).
Proof.
  revert message. induction keys as [|name keys IH]; intros message Hkeys.
  - cbn. by rewrite append_empty_r.
  - assert (forall name, name ∈ keys ->
              LINKS_KV w !! name <> Some Malformed
              /\ LINKS_KV w !! name <> Some NullText)
      as Hrest by (intros other Hother; apply Hkeys; by right).
    rewrite sendUserLinks_loop_step. cbn [listing].
    destruct (Hkeys name) as [Hmalformed Hnull]; [by left|].
    destruct (LINKS_KV w !! name) as [[| |meta|]|] eqn:Hname.
    + by apply IH.
    + done.
    + rewrite IH by done. by rewrite append_assoc.
    + done.
    + by apply IH.
Qed.

(** A loop that meets a value that is not JSON throws, whatever it has
    gathered; nothing has gone out by then. *)
Lemma sendUserLinks_loop_malformed userId name keys message w :
  LINKS_KV w !! name = Some Malformed ->
  sendUserLinks_loop env userId (name :: keys) message w = (Throw SyntaxError, w).
Proof.
  intros Hname. by rewrite sendUserLinks_loop_step, Hname.
Qed.






End Listing.



(** ** Coherence of the two handlers, and some runs *)

(** The decimal form of a number is not empty. *)
Lemma pretty_N_go_nonempty x s :
  s <> EmptyString -> pretty_N_go x s <> EmptyString.
Proof.
  revert s. induction (N.lt_wf_0 x) as [x _ IH]; intros s Hs.
  assert (x = 0 \/ 0 < x)%N as [->|Hx] by lia.
  - by rewrite pretty_N_go_0.
  - rewrite pretty_N_go_step by done. apply IH; [by apply N.div_lt|done].
Qed.

Lemma pretty_nonempty (z : Z) : pretty z <> EmptyString.
Proof.
  assert (forall p : positive, pretty p <> EmptyString) as Hpos.
  { intros p. unfold pretty, pretty_positive, pretty, pretty_N.
    case_decide; [done|].
    rewrite pretty_N_go_step by lia. by apply pretty_N_go_nonempty. }
  destruct z as [|p|p]; [done|apply Hpos|done].
Qed.

(** A link that has just been issued is found by the file-serving handler
    under the user id and the token of the reply. *)
Lemma issued_link_is_found env net chatId userId info w :
  LINKS_KV (issued env net chatId userId info w)
    !! key_of (pretty userId) (randomUUID net)
  = Some (Encodes info).
Proof. apply lookup_insert_eq. Qed.

(** The link sent for a file message serves that file: on a later request
    for the path of the link, with the file resolving and downloading, the
    response carries the upstream body under the name extracted from the
    message. *)
Lemma issued_link_serves env net later request m chatId userId w name url upstream :
  file_message env net request m chatId userId w ->
  js_gt (fileSize (extractFileInfo m)) MAX_FILE_SIZE = false ->
  randomUUID net <> EmptyString ->
  fileName (extractFileInfo m) = Some name ->
  let after := snd (handleTelegramWebhook env net request w) in
  fst (getTelegramFileLink env later (fileId (extractFileInfo m)) after)
  = Return (Some url) ->
  download later url = Some upstream ->
  200 <= status upstream <= 599 ->
  exists r,
    fst (serveFile env later (Some (pretty userId)) (Some (randomUUID net)) after)
    = Return r
    /\ body r = body upstream
    /\ Headers_get "Content-Disposition" (headers r)
       = Some (content_disposition name).
Proof.
  intros Hfile Hsize Htoken Hname after Hurl Hdown Hstatus.
  assert (LINKS_KV after !! key_of (pretty userId) (randomUUID net)
          = Some (Encodes (extractFileInfo m))) as Hkey.
  { unfold after. rewrite (webhook_issue env net _ _ _ _ _ Hfile Hsize).
    apply issued_link_is_found. }
  destruct (served_file_is_relayed_gen env later (pretty userId) (randomUUID net)
              (extractFileInfo m) name url upstream after)
    as (r & Hr & Hbody & _ & _ & _ & Hheader);
    [apply pretty_nonempty|done..|].
  by exists r.
Qed.

(** The encoded file name cannot close the quotes around it. *)
Lemma encodeURIComponent_no_quote (s : string) :
  has_char (Ascii.ascii_of_nat 34) (encodeURIComponent s) = false.
Proof.
  induction s as [|c s IH]; [done|].
  cbn [encodeURIComponent].
  destruct (uri_unreserved c) eqn:Hc.
  - cbn [has_char]. rewrite IH, orb_false_r.
    destruct c as [[] [] [] [] [] [] [] []]; vm_compute in Hc |- *;
      first [reflexivity | discriminate].
  - cbn [has_char]. rewrite IH, !orb_false_r.
    destruct c as [[] [] [] [] [] [] [] []]; vm_compute; reflexivity.
Qed.

Example route_file :
  handleRequest sample_env (sample_net "member")
    {| method := "GET"; pathname := "/file/42/" +:+ sample_token; payload := None |}
    stored_world
  = serveFile sample_env (sample_net "member") (Some "42") (Some sample_token)
      stored_world.
Proof. reflexivity. Qed.

Example route_file_without_token :
  fst (handleRequest sample_env (sample_net "member")
         {| method := "GET"; pathname := "/file/42"; payload := None |} stored_world)
  = Return missing_response.
Proof. reflexivity. Qed.

Example route_unknown :
  fst (handleRequest sample_env (sample_net "member")
         {| method := "GET"; pathname := "/"; payload := None |} empty_world)
  = Return (text_Response "Not Found" 404).
Proof. reflexivity. Qed.

Example webhook_get_is_refused :
  fst (handleRequest sample_env (sample_net "member")
         {| method := "GET"; pathname := "/webhook"; payload := None |} empty_world)
  = Return (text_Response "Invalid request method" 405).
Proof. reflexivity. Qed.

Example sizes_in_MiB :
  (toFixed2_MiB 1048576, toFixed2_MiB 5243, toFixed2_MiB 5242, toFixed2_MiB 20971520)
  = ("1.00", "0.01", "0.00", "20.00").
Proof. vm_compute. reflexivity. Qed.

Example encoded_name :
  encodeURIComponent "a b/c(1).pdf" = "a%20b%2Fc(1).pdf".
Proof. reflexivity. Qed.

Example listed_in_byte_order :
  list_keys "user:4:"
    (list_to_map [("user:42:a", EmptyText); ("user:4:b", Malformed);
                  ("user:4:a", EmptyText); ("user:4", EmptyText)])
  = ["user:4:a"; "user:4:b"].
Proof. vm_compute. reflexivity. Qed.

(** * Further properties *)

(** ** How a run of the webhook handler can end *)

Section WebhookRuns.
Context (env : config) (net : outside).

Lemma log_reply_answered chatId userId text w :
  log (reply env chatId text) (log (membership_query env userId) w)
  = answered env chatId userId text w.
Proof. unfold answered, log. cbn. by rewrite <- app_assoc. Qed.

(** The loop of the listing either gathers a text or throws on a value
    that is not read as a record; it leaves the world as it is. *)
Lemma sendUserLinks_loop_outcome userId keys message w :
  (exists text, sendUserLinks_loop env userId keys message w = (Return text, w))
  \/ (exists e, sendUserLinks_loop env userId keys message w = (Throw e, w)).
Proof.
  revert message. induction keys as [|name keys IH]; intros message.
  - left. by eexists.
  - rewrite sendUserLinks_loop_step.
    destruct (LINKS_KV w !! name) as [[| |meta|]|];
      [apply IH|right; by eexists|apply IH|right; by eexists|apply IH].
Qed.

(** The listing, with its binds run. *)
Lemma sendUserLinks_run chatId userId w :
  sendUserLinks env net chatId userId w
  = let keys := list_keys ("user:" +:+ pretty userId +:+ ":") (LINKS_KV w) in
    if (length keys =? 0)%nat then
      sendTelegramMessage env net chatId no_links_text w
    else
      match sendUserLinks_loop env userId keys links_header w with
      | (Return message, w') => sendTelegramMessage env net chatId message w'
      | (Throw e, w') => (Throw e, w')
      end.
Proof.
  unfold sendUserLinks. unfold mbind at 1, M_bind at 1, KV_list at 1. cbn zeta.
  by destruct (length _ =? 0)%nat.
Qed.

Lemma sendUserLinks_outcome chatId userId w :
  (exists text,
     sendUserLinks env net chatId userId w
     = (acknowledged env net chatId text, log (reply env chatId text) w))
  \/ (exists e, sendUserLinks env net chatId userId w = (Throw e, w)).
Proof.
  rewrite sendUserLinks_run. cbn zeta.
  destruct (length _ =? 0)%nat.
  - left. eexists. apply sendTelegramMessage_run.
  - destruct (sendUserLinks_loop_outcome userId
                (list_keys ("user:" +:+ pretty userId +:+ ":") (LINKS_KV w))
                links_header w) as [[text ->]|[e ->]].
    + left. eexists. apply sendTelegramMessage_run.
    + right. by eexists.
Qed.

(** Every run of the handler ends in one of the ways of [webhook_run]. *)
Lemma webhook_outcome request w :
  webhook_run env net request w (handleTelegramWebhook env net request w).
Proof.
  destruct (String.eqb (method request) "POST") eqn:Hmethod; cycle 1.
  { unfold handleTelegramWebhook. rewrite Hmethod. constructor.
    by apply String.eqb_neq. }
  apply String.eqb_eq in Hmethod.
  destruct (payload request) as [[message]|] eqn:Hpayload; cycle 1.
  { unfold handleTelegramWebhook. rewrite Hmethod, Hpayload. constructor. }
  assert (forall chatId userId m,
            message = Some m -> chat m ?. chat_id = Some chatId ->
            from m ?. user_id = Some userId -> chatId <> 0 -> userId <> 0 ->
            webhook_run env net request w (handleTelegramWebhook env net request w))
    as Hinbound.
  { intros chatId userId m -> Hchat Hfrom Hchat0 Huser0.
    rewrite (webhook_inbound env net request m chatId userId w) by done.
    cbn zeta.
    destruct (negb (passes_membership env net userId w)).
    { rewrite sendTelegramMessage_run, log_reply_answered. constructor. }
    destruct (truthy_str (text m) && _).
    { rewrite sendTelegramMessage_run, log_reply_answered. constructor. }
    destruct (truthy_str (text m) && _).
    { destruct (sendUserLinks_outcome chatId userId
                  (log (membership_query env userId) w)) as [[text ->]|[e ->]].
      - rewrite log_reply_answered. constructor.
      - constructor. }
    destruct (truthy_str (fileId (extractFileInfo m))) eqn:Hid; cycle 1.
    { cbn. rewrite sendTelegramMessage_run, log_reply_answered. constructor. }
    rewrite (extractFileInfo_named m Hid). cbn [negb orb].
    destruct (js_gt _ _) eqn:Hsize.
    { rewrite sendTelegramMessage_run, log_reply_answered. constructor. }
    run. rewrite sendTelegramMessage_run.
    assert (log (reply env chatId
                   (link_ready_text (link_of env (pretty userId) (randomUUID net))))
              {| LINKS_KV :=
                   <[key_of (pretty userId) (randomUUID net) :=
                       Encodes (extractFileInfo m)]> (LINKS_KV w);
                 calls := calls w ++ [membership_query env userId] |}
            = issued env net chatId userId (extractFileInfo m) w) as ->.
    { unfold issued, log. cbn. by rewrite <- app_assoc. }
    constructor; [done|by apply extractFileInfo_named|done]. }
  unfold handleTelegramWebhook in *. rewrite Hmethod, Hpayload in *.
  cbn in *.
  destruct message as [m|]; [|constructor]. cbn in *.
  destruct (chat m ?. chat_id) as [chatId|] eqn:Hchat; [|constructor].
  destruct (from m ?. user_id) as [userId|] eqn:Hfrom; [|constructor].
  destruct (Z.eqb_spec chatId 0); [constructor|].
  destruct (Z.eqb_spec userId 0); [constructor|].
  cbn. by apply (Hinbound chatId userId m).
Qed.

End WebhookRuns.

Section WebhookFrame.
Context (env : config) (net : outside).

(** X1.  A webhook request that is not a POST is refused with 405.  A POST
    whose body is read as an update object is acknowledged with 200 when
    that object has no message, or its message has no chat id or no sender
    id (or has 0 for one of them).  In both cases nothing goes out and the
    Link Store is as it was. *)
Theorem webhook_ignores_quietly request w :
  (method request <> "POST" ->
   handleTelegramWebhook env net request w = (Return refused_response, w))
  /\ (forall update,
        method request = "POST" -> payload request = Some update ->
        (forall chatId, message update ?. chat ?. chat_id = Some chatId -> chatId = 0)
        \/ (forall userId, message update ?. from ?. user_id = Some userId -> userId = 0) ->
        handleTelegramWebhook env net request w = (Return ok_response, w)).
Proof.
  split.
  - intros Hmethod%String.eqb_neq. unfold handleTelegramWebhook.
    by rewrite Hmethod.
  - intros update Hmethod Hpayload Hid. unfold handleTelegramWebhook.
    rewrite Hmethod, Hpayload. cbn.
    destruct (message update) as [m|]; [|done]. cbn in *.
    destruct (chat m ?. chat_id) as [chatId|] eqn:Hchat; [|done].
    destruct (from m ?. user_id) as [userId|] eqn:Hfrom; [|done].
    destruct Hid as [Hid|Hid].
    + by rewrite (Hid chatId eq_refl).
    + rewrite (Hid userId eq_refl). by rewrite orb_true_r.
Qed.

(** X2.  Whatever the request, a response the webhook handler returns is
    one of two: the 405 refusal when the method is not POST, and the 200
    acknowledgement when it is, whichever branch was taken. *)
Theorem webhook_answers_200_or_405 request w :
  match fst (handleTelegramWebhook env net request w) with
  | Return r =>
      r = if String.eqb (method request) "POST" then ok_response
          else refused_response
  | Throw _ => True
  end.
Proof.
  destruct (String.eqb_spec (method request) "POST") as [Hmethod|Hmethod].
  - destruct (webhook_outcome env net request w); cbn; auto; try done;
      unfold acknowledged; by destruct (post net _ _).
  - apply String.eqb_neq in Hmethod. unfold handleTelegramWebhook.
    by rewrite Hmethod.
Qed.

(** X3.  Whatever the request, the webhook handler sends nothing, or the
    membership query alone, or the membership query followed by one chat
    message: never two messages, never a file request. *)
Theorem webhook_sends_at_most_one_message request w :
  exists sent,
    calls (snd (handleTelegramWebhook env net request w)) = (calls w ++ sent)%list
    /\ (sent = []
        \/ (exists userId, sent = [membership_query env userId])
        \/ (exists chatId userId text,
              sent = [membership_query env userId; reply env chatId text])).
Proof.
  destruct (webhook_outcome env net request w); cbn.
  - exists []. split; [by rewrite app_nil_r|auto].
  - exists []. split; [by rewrite app_nil_r|auto].
  - exists []. split; [by rewrite app_nil_r|auto].
  - eexists. split; [done|]. right. right. by eexists _, _, _.
  - eexists. split; [done|]. right. left. by eexists.
  - eexists. split; [done|]. right. right. by eexists _, _, _.
Qed.

(** X4.  Whatever the request, the webhook handler leaves the Link Store
    as it was or adds one record, under [user:<id>:<uuid>] for the token
    [crypto.randomUUID()] gave, with an identifier, a name and a size that
    is absent or within the ceiling; it never deletes a record. *)
Theorem webhook_only_adds_a_record request w :
  let after := LINKS_KV (snd (handleTelegramWebhook env net request w)) in
  after = LINKS_KV w
  \/ exists (userId : Z) info,
       after = <["user:" +:+ pretty userId +:+ ":" +:+ randomUUID net := Encodes info]>
                 (LINKS_KV w)
       /\ truthy_str (fileId info) = true
       /\ truthy_str (fileName info) = true
       /\ match fileSize info with
          | Some size => size <= MAX_FILE_SIZE
          | None => True
          end.
Proof.
  cbn zeta. destruct (webhook_outcome env net request w) as [| | | | |? userId info Hid Hname Hsize];
    cbn; auto.
  right. exists userId, info. repeat split; try done.
  destruct (fileSize info) as [size|]; [|done]. cbn in Hsize.
  rewrite Z.gtb_ltb in Hsize. by apply Z.ltb_ge.
Qed.

End WebhookFrame.

Lemma webhook_ignores_quietly_witness :
  handleTelegramWebhook sample_env (sample_net "member")
    {| method := "GET"; pathname := "/webhook"; payload := None |} stored_world
  = (Return refused_response, stored_world)
  /\ handleTelegramWebhook sample_env (sample_net "member")
       {| method := "POST"; pathname := "/webhook";
          payload := Some {| message := None |} |} stored_world
     = (Return ok_response, stored_world).
Proof.
  split.
  - apply (proj1 (webhook_ignores_quietly sample_env (sample_net "member")
                    {| method := "GET"; pathname := "/webhook"; payload := None |}
                    stored_world)).
    discriminate.
  - apply (proj2 (webhook_ignores_quietly sample_env (sample_net "member")
                    {| method := "POST"; pathname := "/webhook";
                       payload := Some {| message := None |} |} stored_world)
             {| message := None |}); [reflexivity|reflexivity|].
    left. intros chatId Hchat. discriminate Hchat.
Defined.

(** ** How a run of the file-serving handler can end *)

Section ServeRuns.
Context (env : config) (net : outside).

(** Every run of the handler ends in one of the ways of [serve_run]. *)
Lemma serve_outcome userId token w :
  serve_run env net userId token w (serveFile env net userId token w).
Proof.
  destruct (truthy_str userId) eqn:Hu; cycle 1.
  { rewrite serveFile_missing by auto. constructor. }
  destruct (truthy_str token) eqn:Ht; cycle 1.
  { rewrite serveFile_missing by auto. constructor. }
  destruct userId as [u|]; [|done]. destruct token as [t|]; [|done].
  apply truthy_str_Some in Hu, Ht.
  destruct (LINKS_KV w !! key_of u t) as [[| |meta|]|] eqn:Hkey;
    try (rewrite serveFile_lookup, Hkey by done; by constructor).
  destruct (getTelegramFileLink_run env net (fileId meta)) as (found & _ & Hrun).
  assert (fst (getTelegramFileLink env net (fileId meta) w) = Return found)
    as Hfound by (by rewrite Hrun).
  destruct found as [url|].
  - rewrite (serveFile_resolved env net u t meta url) by done.
    cbn zeta. destruct (download net url) as [upstream|] eqn:Hdown;
      [|by apply (serve_unreachable env net (Some u) (Some t) w meta url)].
    unfold new_Response.
    destruct ((200 <=? status upstream) && (status upstream <=? 599)) eqn:Hrange.
    + by apply (serve_relayed env net (Some u) (Some t) w meta url upstream).
    + apply (serve_bad_status env net (Some u) (Some t) w meta url upstream);
        [done..|].
      intros [Hlo%Z.leb_le Hhi%Z.leb_le]. by rewrite Hlo, Hhi in Hrange.
  - rewrite (serveFile_unresolved env net u t meta) by done.
    by apply (serve_unresolved env net (Some u) (Some t) w meta).
Qed.

(** X5.  The file-serving handler never adds or changes a record: it
    leaves the Link Store as it was, except that it has deleted the record
    of the request when, and only when, it answers 502. *)
Theorem serveFile_only_deletes_on_502 userId token w :
  let run := serveFile env net userId token w in
  (fst run = Return bad_gateway_response
   /\ LINKS_KV (snd run)
      = delete ("user:" +:+ str_ToString userId +:+ ":" +:+ str_ToString token)
          (LINKS_KV w))
  \/ (fst run <> Return bad_gateway_response /\ LINKS_KV (snd run) = LINKS_KV w).
Proof.
  cbn zeta.
  destruct (serve_outcome userId token w)
    as [| | |meta Hkey|meta url Hkey Hurl Hdown
        |meta url upstream Hkey Hurl Hdown Hrange
        |meta url upstream Hkey Hurl Hdown]; cbn; auto.
  right. split; [|done]. intros Heq.
  assert (Headers_get "Content-Disposition" (headers (relayed meta upstream))
            = Headers_get "Content-Disposition" (headers bad_gateway_response))
      as Hheader by congruence.
  cbn [relayed headers] in Hheader. rewrite Headers_get_set in Hheader.
  discriminate Hheader.
Qed.

(** X6.  The file-serving handler sends nothing when it answers 400 or
    403.  When it sends, the key of the request holds a record, what goes
    out first is the [getFile] query for the identifier of that record, and
    what may follow is one download request, for the URL the query
    resolved to; it never sends a chat message. *)
Theorem serveFile_requests userId token w :
  let run := serveFile env net userId token w in
  let key := "user:" +:+ str_ToString userId +:+ ":" +:+ str_ToString token in
  exists sent,
    calls (snd run) = (calls w ++ sent)%list
    /\ (sent = []
        \/ exists meta,
             LINKS_KV w !! key = Some (Encodes meta)
             /\ (sent = [file_query env (fileId meta)]
                 \/ exists url,
                      fst (getTelegramFileLink env net (fileId meta) w)
                      = Return (Some url)
                      /\ sent = [file_query env (fileId meta); Get url]))
    /\ (fst run = Return missing_response \/ fst run = Return forbidden_response ->
        sent = []).
Proof.
  cbn zeta.
  destruct (serve_outcome userId token w)
    as [| | |meta Hkey|meta url Hkey Hurl Hdown
        |meta url upstream Hkey Hurl Hdown Hrange
        |meta url upstream Hkey Hurl Hdown]; cbn.
  - exists []. split; [by rewrite app_nil_r|auto].
  - exists []. split; [by rewrite app_nil_r|auto].
  - exists []. split; [by rewrite app_nil_r|auto].
  - eexists. split; [done|].
    split; [right; exists meta; split; [done|by left]|].
    intros [[=]|[=]].
  - eexists. rewrite <- app_assoc. split; [done|].
    split; [right; exists meta; split; [done|right; by exists url]|].
    intros [[=]|[=]].
  - eexists. rewrite <- app_assoc. split; [done|].
    split; [right; exists meta; split; [done|right; by exists url]|].
    intros [[=]|[=]].
  - eexists. rewrite <- app_assoc. split; [done|].
    split; [right; exists meta; split; [done|right; by exists url]|].
    assert (forall r, headers r = [("content-type", "text/plain;charset=UTF-8")] ->
              Return (relayed meta upstream) <> Return r) as Hother.
    { intros r Hr Heq.
      assert (Headers_get "Content-Disposition" (headers (relayed meta upstream))
              = Headers_get "Content-Disposition" (headers r)) as Hheader
        by congruence.
      cbn [relayed headers] in Hheader.
      rewrite Headers_get_set, Hr in Hheader. discriminate Hheader. }
    intros [Heq|Heq]; by apply Hother in Heq.
Qed.

(** X7.  When the file of a stored record resolves but the download
    request fails, or the upstream status is outside 200..599, the handler
    throws and the record stays in the Link Store: only a failed resolution
    deletes it. *)
Theorem failed_download_keeps_record u t meta url w :
  u <> EmptyString -> t <> EmptyString ->
  LINKS_KV w !! ("user:" +:+ u +:+ ":" +:+ t) = Some (Encodes meta) ->
  fst (getTelegramFileLink env net (fileId meta) w) = Return (Some url) ->
  let run := serveFile env net (Some u) (Some t) w in
  (download net url = None ->
   fst run = Throw NetworkError /\ LINKS_KV (snd run) = LINKS_KV w)
  /\ (forall upstream,
        download net url = Some upstream -> ~ 200 <= status upstream <= 599 ->
        fst run = Throw RangeError /\ LINKS_KV (snd run) = LINKS_KV w).
Proof.
  intros Hu Ht Hkey Hurl. cbn zeta.
  rewrite (serveFile_resolved env net u t meta url) by done. cbn zeta.
  split.
  - by intros ->.
  - intros upstream -> Hrange. unfold new_Response.
    destruct ((200 <=? status upstream) && (status upstream <=? 599)) eqn:Hin;
      [|done].
    apply andb_true_iff in Hin as [Hlo%Z.leb_le Hhi%Z.leb_le]. by destruct Hrange.
Qed.

(** X8.  A link is not used up by a download: after a serve that relays the
    file the Link Store is as it was, and serving the same path again, with
    the outside world answering as before, gives the same response. *)
Theorem link_survives_download u t meta url upstream w :
  u <> EmptyString -> t <> EmptyString ->
  LINKS_KV w !! ("user:" +:+ u +:+ ":" +:+ t) = Some (Encodes meta) ->
  fst (getTelegramFileLink env net (fileId meta) w) = Return (Some url) ->
  download net url = Some upstream ->
  200 <= status upstream <= 599 ->
  let run := serveFile env net (Some u) (Some t) w in
  fst run = Return (relayed meta upstream)
  /\ LINKS_KV (snd run) = LINKS_KV w
  /\ fst (serveFile env net (Some u) (Some t) (snd run)) = fst run.
Proof.
  intros Hu Ht Hkey Hurl Hdown [Hlo%Z.leb_le Hhi%Z.leb_le]. cbn zeta.
  assert (forall w',
            LINKS_KV w' = LINKS_KV w ->
            serveFile env net (Some u) (Some t) w'
            = (Return (relayed meta upstream),
               log (Get url) (log (file_query env (fileId meta)) w'))) as Hserve.
  { intros w' Hsame.
    rewrite (serveFile_resolved env net u t meta url); [| done | done | |].
    - cbn zeta. rewrite Hdown. unfold new_Response. by rewrite Hlo, Hhi.
    - by rewrite Hsame.
    - destruct (getTelegramFileLink_run env net (fileId meta)) as (found & _ & Hrun).
      rewrite Hrun in Hurl |- *. done. }
  rewrite (Hserve w eq_refl). cbn. split; [done|]. split; [done|].
  by rewrite Hserve.
Qed.

End ServeRuns.

Lemma failed_download_keeps_record_witness :
  let net := {| api := api (sample_net "member"); post := fun _ _ => true;
                download := fun _ => None; randomUUID := sample_token |} in
  let run := serveFile sample_env net (Some "42") (Some sample_token) stored_world in
  fst run = Throw NetworkError /\ LINKS_KV (snd run) = LINKS_KV stored_world.
Proof.
  apply (proj1 (failed_download_keeps_record sample_env
                  {| api := api (sample_net "member"); post := fun _ _ => true;
                     download := fun _ => None; randomUUID := sample_token |}
                  "42" sample_token sample_record
                  "https://api.telegram.org/file/bot123:secret/documents/file_7.pdf"
                  stored_world
                  ltac:(discriminate) ltac:(discriminate)
                  ltac:(vm_compute; reflexivity) ltac:(vm_compute; reflexivity))).
  reflexivity.
Defined.

Lemma link_survives_download_witness :
  let run := serveFile sample_env (sample_net "member") (Some "42")
               (Some sample_token) stored_world in
  fst run = Return (relayed sample_record upstream_file)
  /\ LINKS_KV (snd run) = LINKS_KV stored_world
  /\ fst (serveFile sample_env (sample_net "member") (Some "42") (Some sample_token)
            (snd run))
     = fst run.
Proof.
  apply (link_survives_download sample_env (sample_net "member")
           "42" sample_token sample_record
           "https://api.telegram.org/file/bot123:secret/documents/file_7.pdf"
           upstream_file stored_world);
    first [discriminate | reflexivity | vm_compute; reflexivity
          | vm_compute; split; discriminate].
Defined.

(** ** What the Link Store can hold *)

Section StoreInvariant.
Context (env : config).

(** A request leaves the store alone, writes one record with an identifier
    and a name, or deletes one key. *)
Lemma handleRequest_store net request w :
  let after := LINKS_KV (snd (handleRequest env net request w)) in
  after = LINKS_KV w
  \/ (exists key info,
        after = <[key := Encodes info]> (LINKS_KV w)
        /\ written_by_worker (Encodes info))
  \/ (exists key, after = delete key (LINKS_KV w)).
Proof.
  cbn zeta. unfold handleRequest. cbn zeta.
  destruct (bool_decide _).
  { destruct (webhook_outcome env net request w); cbn; auto.
    right. left. by eexists _, _. }
  destruct (bool_decide _); [|by left].
  destruct (serve_outcome env net (split "/" (pathname request) !! 2%nat)
              (split "/" (pathname request) !! 3%nat) w); cbn; auto.
  right. right. by eexists.
Qed.

Lemma handleRequest_well_formed net request w :
  well_formed_store (LINKS_KV w) ->
  well_formed_store (LINKS_KV (snd (handleRequest env net request w))).
Proof.
  intros Hw.
  destruct (handleRequest_store net request w)
    as [-> | [(key & info & -> & Hinfo) | (key & ->)]].
  - done.
  - by apply map_Forall_insert_2.
  - by apply map_Forall_delete.
Qed.

(** X9.  Whatever requests the worker handles, in whatever order and
    whatever the outside world answers, a Link Store that held only records
    with an identifier and a name still holds only such records: the worker
    never stores an empty text, a text that is not JSON, or a record without
    identifier or name. *)
Theorem store_stays_well_formed events w :
  well_formed_store (LINKS_KV w) ->
  well_formed_store (LINKS_KV (handle_all env events w)).
Proof.
  revert w. induction events as [|[net request] events IH]; intros w Hw; [done|].
  cbn [handle_all]. by apply IH, handleRequest_well_formed.
Qed.

(** X10.  On a Link Store that holds only records the worker wrote, the
    link-listing flow never throws on a stored value: it sends exactly one
    message, the notice when the user has no key and otherwise the header
    followed by one line for every listed key. *)
Theorem listing_of_well_formed_store net chatId userId w :
  well_formed_store (LINKS_KV w) ->
  let keys := list_keys ("user:" +:+ pretty userId +:+ ":") (LINKS_KV w) in
  exists text lines,
    sendUserLinks env net chatId userId w
    = (acknowledged env net chatId text, log (reply env chatId text) w)
    /\ text = (if decide (keys = []) then no_links_text
               else links_header +:+ String.concat EmptyString lines)
    /\ Forall2 (fun name line =>
                  exists meta,
                    LINKS_KV w !! name = Some (Encodes meta)
                    /\ line = link_line env userId name meta)
         keys lines.
Proof.
  intros Hw. cbn zeta.
  set (keys := list_keys _ _).
  assert (forall name, name ∈ keys -> exists meta,
            LINKS_KV w !! name = Some (Encodes meta)) as Hkeys.
  { intros name Hname. apply list_keys_listed in Hname as [_ [t Ht]].
    pose proof (Hw name t Ht) as Hwritten.
    destruct t as [| |meta|]; [done..|by exists meta|done]. }
  assert (exists lines,
            listing env userId (LINKS_KV w) keys = String.concat EmptyString lines
            /\ Forall2 (fun name line =>
                          exists meta,
                            LINKS_KV w !! name = Some (Encodes meta)
                            /\ line = link_line env userId name meta)
                 keys lines) as (lines & Hlisting & Hlines).
  { clearbody keys. induction keys as [|name keys IH].
    - by exists [].
    - destruct IH as (lines & Hlisting & Hlines).
      { intros other Hother. apply Hkeys. set_solver. }
      destruct (Hkeys name) as [meta Hmeta]; [set_solver|].
      exists (link_line env userId name meta :: lines). split.
      + cbn [listing]. rewrite Hmeta, Hlisting.
        destruct lines; [by rewrite append_empty_r|done].
      + constructor; [by exists meta|done]. }
  rewrite sendUserLinks_run. cbn zeta. fold keys.
  destruct (decide (keys = [])) as [Hnil|Hnil].
  - rewrite Hnil. cbn. eexists _, []. split; [apply sendTelegramMessage_run|].
    split; [done|]. rewrite Hnil in Hlines. by inversion Hlines.
  - destruct keys as [|name keys'] eqn:Hk; [done|]. cbn [length Nat.eqb].
    rewrite sendUserLinks_loop_run.
    + eexists _, lines. split; [apply sendTelegramMessage_run|].
      split; [by rewrite Hlisting|done].
    + intros name' Hname'. by destruct (Hkeys name' Hname') as [meta ->].
Qed.

End StoreInvariant.

Lemma store_stays_well_formed_witness :
  well_formed_store
    (LINKS_KV
       (handle_all sample_env
          [(sample_net "member", webhook_request (document_message (Some 1048576)));
           (sample_net "member",
            webhook_request (sample_message (Some "/links") None None));
           (failing_net,
            {| method := "GET"; pathname := "/file/42/" +:+ sample_token;
               payload := None |})]
          empty_world)).
Proof.
  apply (store_stays_well_formed sample_env).
  apply map_Forall_empty.
Defined.

Lemma listing_of_well_formed_store_witness :
  exists text lines,
    sendUserLinks sample_env (sample_net "member") 42 42 stored_world
    = (acknowledged sample_env (sample_net "member") 42 text,
       log (reply sample_env 42 text) stored_world)
    /\ text = (if decide (list_keys ("user:" +:+ pretty 42 +:+ ":")
                            (LINKS_KV stored_world) = [])
               then no_links_text
               else links_header +:+ String.concat EmptyString lines)
    /\ Forall2 (fun name line =>
                  exists meta,
                    LINKS_KV stored_world !! name = Some (Encodes meta)
                    /\ line = link_line sample_env 42 name meta)
         (list_keys ("user:" +:+ pretty 42 +:+ ":") (LINKS_KV stored_world)) lines.
Proof.
  apply (listing_of_well_formed_store sample_env (sample_net "member") 42 42
           stored_world).
  apply map_Forall_singleton. split; reflexivity.
Defined.

(** ** The two helpers that ask the Bot API *)

Section ApiHelpers.
Context (env : config) (net : outside).

(** X11.  The file resolver sends its one query, never throws and never
    touches the Link Store.  It returns [null] when the request fails, the
    body is not JSON, the reply is not an object with a truthy [ok], or
    [result] is [null] or missing; otherwise it returns the download URL
    built from [result.file_path], which ends in [undefined] when [result]
    has no [file_path]. *)
Theorem file_link_resolution fileId w :
  exists found,
    getTelegramFileLink env net fileId w
    = (Return found, log (file_query env fileId) w)
    /\ match api net (TELEGRAM_API_URL env +:+ "/getFile?file_id="
                      +:+ str_ToString fileId) with
       | Data (JObj fields) =>
           if truthy (field "ok" fields) then
             match field "result" fields with
             | None | Some JNull => found = None
             | Some (JObj result) =>
                 found
                 = Some ("https://api.telegram.org/file/bot" +:+ BOT_TOKEN env +:+ "/"
                         +:+ ToString (field "file_path" result))
             | Some _ =>
                 found
                 = Some ("https://api.telegram.org/file/bot" +:+ BOT_TOKEN env +:+ "/"
                         +:+ "undefined")
             end
           else found = None
       | _ => found = None
       end.
Proof.
  unfold getTelegramFileLink, fetch_json, file_query, prop. run.
  destruct (api net _) as [| |data]; run; try (eexists; split; done).
  destruct data as [|b|n|s|items|fields]; run; try (eexists; split; done).
  destruct (truthy (field "ok" fields)); run; try (eexists; split; done).
  destruct (field "result" fields) as [[|b|n|s|items|rf]|]; run;
    eexists; split; done.
Qed.

(** X12.  The membership checker sends its one query, never throws and
    never touches the Link Store, and what it returns is truthy exactly
    when the reply is an object with a truthy [ok] whose [result] is an
    object with [status] member, creator or administrator. *)
Theorem membership_is_decided_by_reply userId w :
  exists member,
    isUserMember env net userId w
    = (Return member, log (membership_query env userId) w)
    /\ truthy member
       = reports_member
           (api net (TELEGRAM_API_URL env +:+ "/getChatMember?chat_id="
                     +:+ CHANNEL_ID env +:+ "&user_id=" +:+ pretty userId)).
Proof.
  destruct (isUserMember_run env net userId) as [member Hrun].
  exists member. split; [done|].
  rewrite <- (passes_membership_reply env net userId w).
  unfold passes_membership. by rewrite Hrun.
Qed.

End ApiHelpers.

(** ** Commands and attachments *)

Section Dispatch.
Context (env : config) (net : outside).

(** X13.  For a member, a command comes before any attachment: a message
    whose text is [/start] gets the greeting and nothing is stored, and a
    message whose text starts with [/links] gets the listing, whatever else
    the message carries. *)
Theorem commands_come_first request m chatId userId w :
  inbound request m chatId userId ->
  passes_membership env net userId w = true ->
  (text m = Some "/start" ->
   handleTelegramWebhook env net request w
   = (acknowledged env net chatId greeting_text,
      answered env chatId userId greeting_text w))
  /\ (forall rest,
        text m = Some ("/links" +:+ rest) ->
        handleTelegramWebhook env net request w
        = sendUserLinks env net chatId userId (log (membership_query env userId) w)).
Proof.
  intros Hin Hmember.
  rewrite (webhook_inbound env net request m chatId userId w Hin), Hmember.
  cbn zeta. split.
  - intros ->. cbn. by rewrite sendTelegramMessage_run, log_reply_answered.
  - intros rest ->. by destruct rest.
Qed.

(** X14.  For a member's message that is not a command, an attachment
    whose [file_id] is missing or empty gets the validation error, and
    nothing is stored, even when the attachment has a name and a size. *)
Theorem attachment_without_id_is_invalid request m chatId userId file w :
  inbound request m chatId userId ->
  passes_membership env net userId w = true ->
  is_command m = false ->
  selected_file m = Some file ->
  truthy_str (file_id file) = false ->
  handleTelegramWebhook env net request w
  = (acknowledged env net chatId invalid_file_text,
     answered env chatId userId invalid_file_text w).
Proof.
  intros Hin Hmember Hcommand Hfile Hid.
  apply (webhook_invalid env net request m); [done..|]. left.
  by rewrite (extractFileInfo_selected m file Hfile).
Qed.

(** X15.  A document without a name of its own is not named after its
    kind: it is called "video.mp4" when the message also has a video,
    "audio.mp3" when it has an audio and no video, and "photo.jpg"
    otherwise. *)
Theorem unnamed_document_name (m : Message) d :
  document m = Some d ->
  truthy_str (file_name d) = false ->
  fileId (extractFileInfo m) = file_id d
  /\ fileName (extractFileInfo m)
     = Some (if present (video m) then "video.mp4"
             else if present (audio m) then "audio.mp3"
             else "photo.jpg").
Proof.
  intros Hd Hname.
  rewrite (extractFileInfo_selected m d) by (unfold selected_file; by rewrite Hd).
  cbn. by rewrite Hname.
Qed.

End Dispatch.

Lemma commands_come_first_witness :
  handleTelegramWebhook sample_env (sample_net "member")
    (webhook_request (sample_message (Some "/start") (Some (report_pdf (Some 1024))) None))
    empty_world
  = (Return ok_response, answered sample_env 42 42 greeting_text empty_world)
  /\ handleTelegramWebhook sample_env (sample_net "member")
       (webhook_request (sample_message (Some "/links now") (Some (report_pdf None)) None))
       empty_world
     = sendUserLinks sample_env (sample_net "member") 42 42
         (log (membership_query sample_env 42) empty_world).
Proof.
  split.
  - apply (proj1 (commands_come_first sample_env (sample_net "member")
                    (webhook_request
                       (sample_message (Some "/start") (Some (report_pdf (Some 1024)))
                          None))
                    (sample_message (Some "/start") (Some (report_pdf (Some 1024))) None)
                    42 42 empty_world
                    ltac:(split; first [reflexivity | lia])
                    ltac:(vm_compute; reflexivity))).
    reflexivity.
  - apply (proj2 (commands_come_first sample_env (sample_net "member")
                    (webhook_request
                       (sample_message (Some "/links now") (Some (report_pdf None)) None))
                    (sample_message (Some "/links now") (Some (report_pdf None)) None)
                    42 42 empty_world
                    ltac:(split; first [reflexivity | lia])
                    ltac:(vm_compute; reflexivity))
             " now").
    reflexivity.
Defined.

Lemma attachment_without_id_is_invalid_witness :
  handleTelegramWebhook sample_env (sample_net "member")
    (webhook_request
       (sample_message None
          (Some {| file_id := None; file_name := Some "notes.txt";
                   file_size := Some 12 |}) None))
    empty_world
  = (Return ok_response, answered sample_env 42 42 invalid_file_text empty_world).
Proof.
  apply (attachment_without_id_is_invalid sample_env (sample_net "member")
           (webhook_request
              (sample_message None
                 (Some {| file_id := None; file_name := Some "notes.txt";
                          file_size := Some 12 |}) None))
           (sample_message None
              (Some {| file_id := None; file_name := Some "notes.txt";
                       file_size := Some 12 |}) None)
           42 42
           {| file_id := None; file_name := Some "notes.txt"; file_size := Some 12 |}
           empty_world);
    first [reflexivity | split; first [reflexivity | lia] | vm_compute; reflexivity].
Defined.

Lemma unnamed_document_name_witness :
  let d := {| file_id := Some "doc-1"; file_name := None; file_size := Some 10 |} in
  fileId (extractFileInfo (sample_message None (Some d) None)) = Some "doc-1"
  /\ fileName (extractFileInfo (sample_message None (Some d) None)) = Some "photo.jpg".
Proof.
  apply (unnamed_document_name
           (sample_message None
              (Some {| file_id := Some "doc-1"; file_name := None;
                       file_size := Some 10 |}) None)
           {| file_id := Some "doc-1"; file_name := None; file_size := Some 10 |});
    reflexivity.
Defined.

(** ** Keys, paths and links *)

Section Keys.

Lemma pretty_N_go_no_slash x s :
  has_char "/" s = false -> has_char "/" (pretty_N_go x s) = false.
Proof.
  revert s. induction (N.lt_wf_0 x) as [x _ IH]; intros s Hs.
  assert (x = 0 \/ 0 < x)%N as [->|Hx] by lia.
  - by rewrite pretty_N_go_0.
  - rewrite pretty_N_go_step by done. apply IH.
    { by apply N.div_lt. }
    cbn. rewrite Hs. unfold pretty_N_char. by repeat case_match.
Qed.

Lemma pretty_no_slash (z : Z) : has_char "/" (pretty z) = false.
Proof.
  assert (forall p : positive, has_char "/" (pretty p) = false) as Hpos.
  { intros p. unfold pretty, pretty_positive, pretty, pretty_N.
    case_decide; [done|]. by apply pretty_N_go_no_slash. }
  destruct z as [|p|p]; [done|apply Hpos|].
  change (has_char "/" ("-" +:+ pretty p) = false).
  rewrite has_char_append. by rewrite Hpos.
Qed.

(** Two texts cut at their first colon are equal piece by piece. *)
Lemma append_colon_inj u v x y :
  has_char ":" u = false -> has_char ":" v = false ->
  u +:+ String ":" x = v +:+ String ":" y -> u = v /\ x = y.
Proof.
  revert v. induction u as [|a u IH]; intros [|b v] Hu Hv Heq.
  - by injection Heq as ->.
  - change (String ":" x = String b (v +:+ String ":" y)) in Heq.
    injection Heq as <- _. cbn in Hv. done.
  - change (String a (u +:+ String ":" x) = String ":" y) in Heq.
    injection Heq as -> _. cbn in Hu. done.
  - change (String a (u +:+ String ":" x) = String b (v +:+ String ":" y)) in Heq.
    injection Heq as -> Heq. cbn in Hu, Hv.
    apply orb_false_iff in Hu as [_ Hu]. apply orb_false_iff in Hv as [_ Hv].
    destruct (IH v Hu Hv Heq) as [-> ->]. done.
Qed.

Lemma key_of_pretty_inj (a b : Z) (t t' : string) :
  key_of (pretty a) t = key_of (pretty b) t' -> a = b /\ t = t'.
Proof.
  unfold key_of. intros Heq.
  apply (inj (String.app "user:")) in Heq.
  apply append_colon_inj in Heq as [Hab ->]; [|apply pretty_no_colon..].
  by apply (inj pretty) in Hab.
Qed.

(** A text that starts with [p] is [p] followed by a rest. *)
Lemma prefix_rest p s : String.prefix p s = true -> exists rest, s = p +:+ rest.
Proof.
  revert s. induction p as [|a p IH]; intros s Hs.
  - by exists s.
  - destruct s as [|b s]; [done|]. cbn in Hs.
    destruct (Ascii.ascii_dec a b) as [->|]; [|done].
    destruct (IH s Hs) as [rest ->]. by exists rest.
Qed.

(** The path of a link is routed to the file-serving handler with its two
    pieces, whatever the method. *)
Lemma handleRequest_link_path env net method payload u t w :
  has_char "/" u = false -> has_char "/" t = false ->
  handleRequest env net
    {| method := method; pathname := "/file/" +:+ u +:+ "/" +:+ t;
       payload := payload |} w
  = serveFile env net (Some u) (Some t) w.
Proof.
  intros Hu Ht. unfold handleRequest. cbn [pathname].
  change ("/file/" +:+ u +:+ "/" +:+ t)
    with (EmptyString +:+ String "/" ("file" +:+ String "/" (u +:+ String "/" t))).
  rewrite !split_piece, split_whole by done. reflexivity.
Qed.

(** X16.  Every record the worker stores is under a key that tells its
    user and its token apart: two keys [user:<id>:<token>] are equal only
    for the same user id and the same token, so a record of one user is
    never read or overwritten through the id of another. *)
Theorem record_key_is_unambiguous (a b : Z) (t t' : string) :
  key_of (pretty a) t = key_of (pretty b) t' <-> (a = b /\ t = t').
Proof.
  split.
  - apply key_of_pretty_inj.
  - by intros [-> ->].
Qed.

(** X17.  The listing of a user never shows the link of another user: a
    key of the form [user:<other>:<token>] is among the keys listed for
    [userId] only when [other] is [userId], and every listed key is a key of
    [userId] that is in the Link Store. *)
Theorem listing_is_per_user (kv : gmap string kv_text) (userId : Z) :
  (forall name,
     name ∈ list_keys ("user:" +:+ pretty userId +:+ ":") kv ->
     is_Some (kv !! name)
     /\ exists token, name = "user:" +:+ pretty userId +:+ ":" +:+ token)
  /\ (forall (other : Z) token,
        "user:" +:+ pretty other +:+ ":" +:+ token
          ∈ list_keys ("user:" +:+ pretty userId +:+ ":") kv ->
        other = userId).
Proof.
  assert (forall name,
            name ∈ list_keys ("user:" +:+ pretty userId +:+ ":") kv ->
            is_Some (kv !! name)
            /\ exists token, name = "user:" +:+ pretty userId +:+ ":" +:+ token)
    as Hlisted.
  { intros name Hname. apply list_keys_listed in Hname as [Hprefix Hsome].
    split; [done|]. apply prefix_rest in Hprefix as [rest ->]. exists rest.
    change (("user:" +:+ pretty userId +:+ ":") +:+ rest)
      with ("user:" +:+ ((pretty userId +:+ ":") +:+ rest)).
    by rewrite append_assoc. }
  split; [done|].
  intros other token Hin. apply Hlisted in Hin as [_ [token' Heq]].
  by apply key_of_pretty_inj in Heq as [-> _].
Qed.

End Keys.

Section RoundTrip.
Context (env : config).

(** X18.  The link the worker sends can be redeemed: after a file message
    from a member is handled at [/webhook], a request for the path of the
    link that was sent, at a time when the file resolves and downloads,
    returns the upstream response with the Content-Disposition of the name
    extracted from the message. *)
Theorem sent_link_can_be_redeemed net later request m chatId userId w
    method payload url upstream :
  pathname request = "/webhook" ->
  file_message env net request m chatId userId w ->
  js_gt (fileSize (extractFileInfo m)) MAX_FILE_SIZE = false ->
  randomUUID net <> EmptyString ->
  has_char "/" (randomUUID net) = false ->
  let after := snd (handleRequest env net request w) in
  let path := "/file/" +:+ pretty userId +:+ "/" +:+ randomUUID net in
  fst (getTelegramFileLink env later (fileId (extractFileInfo m)) after)
  = Return (Some url) ->
  download later url = Some upstream ->
  200 <= status upstream <= 599 ->
  calls after
  = (calls w ++ [membership_query env userId;
                 reply env chatId (link_ready_text (WORKER_DOMAIN env +:+ path))])%list
  /\ fst (handleRequest env later
            {| method := method; pathname := path; payload := payload |} after)
     = Return (relayed (extractFileInfo m) upstream).
Proof.
  intros Hpath Hfile Hsize Htoken Hslash after path Hurl Hdown
    [Hlo%Z.leb_le Hhi%Z.leb_le].
  assert (handleRequest env net request w
          = (acknowledged env net chatId
               (link_ready_text (link_of env (pretty userId) (randomUUID net))),
             issued env net chatId userId (extractFileInfo m) w)) as Hrun.
  { unfold handleRequest. rewrite Hpath. cbn.
    by apply webhook_issue. }
  unfold after in *. rewrite Hrun in *. cbn [snd] in *.
  split; [done|].
  unfold path. rewrite handleRequest_link_path by (done || apply pretty_no_slash).
  rewrite (serveFile_resolved env later (pretty userId) (randomUUID net)
             (extractFileInfo m) url);
    [|apply pretty_nonempty|done|apply issued_link_is_found|done].
  cbn zeta. rewrite Hdown. unfold new_Response. by rewrite Hlo, Hhi.
Qed.

(** X19.  Two file messages handled one after the other leave two records
    when their tokens differ, each under its own key with its own metadata;
    when [crypto.randomUUID()] gives the same token twice to the same user,
    the second record replaces the first. *)
Theorem two_messages_two_links net1 net2 request1 request2 m1 m2
    chat1 chat2 user1 user2 w :
  file_message env net1 request1 m1 chat1 user1 w ->
  js_gt (fileSize (extractFileInfo m1)) MAX_FILE_SIZE = false ->
  let w1 := snd (handleTelegramWebhook env net1 request1 w) in
  file_message env net2 request2 m2 chat2 user2 w1 ->
  js_gt (fileSize (extractFileInfo m2)) MAX_FILE_SIZE = false ->
  let w2 := snd (handleTelegramWebhook env net2 request2 w1) in
  LINKS_KV w2 !! key_of (pretty user2) (randomUUID net2)
  = Some (Encodes (extractFileInfo m2))
  /\ (randomUUID net1 <> randomUUID net2 \/ user1 <> user2 ->
      LINKS_KV w2 !! key_of (pretty user1) (randomUUID net1)
      = Some (Encodes (extractFileInfo m1))).
Proof.
  intros Hfile1 Hsize1 w1 Hfile2 Hsize2 w2.
  unfold w2, w1 in *.
  rewrite (webhook_issue env net1 _ _ _ _ _ Hfile1 Hsize1) in *.
  rewrite (webhook_issue env net2 _ _ _ _ _ Hfile2 Hsize2).
  cbn. split; [apply lookup_insert_eq|].
  intros Hdiff. rewrite lookup_insert_ne; [apply lookup_insert_eq|].
  intros Heq. apply key_of_pretty_inj in Heq as [Huser Htoken].
  destruct Hdiff; congruence.
Qed.

(** X20.  When every key listed for a user holds an empty value, the
    listing is the header alone: the keys are skipped, and the notice for
    a user without links is not sent. *)
Theorem empty_values_leave_the_header net chatId userId w :
  let keys := list_keys ("user:" +:+ pretty userId +:+ ":") (LINKS_KV w) in
  keys <> [] ->
  (forall name, name ∈ keys -> LINKS_KV w !! name = Some EmptyText) ->
  sendUserLinks env net chatId userId w
  = (acknowledged env net chatId links_header,
     log (reply env chatId links_header) w).
Proof.
  cbn zeta. intros Hkeys Hempty.
  rewrite sendUserLinks_run. cbn zeta.
  destruct (list_keys _ _) as [|name keys] eqn:Hlist; [done|].
  cbn [length Nat.eqb].
  rewrite sendUserLinks_loop_run.
  - assert (listing env userId (LINKS_KV w) (name :: keys) = EmptyString) as ->.
    { clear Hkeys Hlist. induction (name :: keys) as [|k ks IH]; [done|].
      cbn [listing]. rewrite (Hempty k) by set_solver.
      apply IH. intros k' Hk'. apply Hempty. set_solver. }
    rewrite append_empty_r. apply sendTelegramMessage_run.
  - intros name' Hname'. by rewrite (Hempty name' Hname').
Qed.

End RoundTrip.

(** ** The responses of the worker *)

Section Responses.
Context (env : config) (net : outside).

Lemma encodeURIComponent_chars (s : string) :
  all_chars encoded_char (encodeURIComponent s) = true.
Proof.
  induction s as [|c s IH]; [done|].
  cbn [encodeURIComponent].
  destruct (uri_unreserved c) eqn:Hc.
  - cbn [all_chars]. rewrite IH, andb_true_r. unfold encoded_char. by rewrite Hc.
  - cbn [all_chars]. rewrite IH, !andb_true_r.
    destruct c as [[] [] [] [] [] [] [] []]; vm_compute; reflexivity.
Qed.

Lemma encodeURIComponent_plain (s : string) :
  all_chars uri_unreserved s = true -> encodeURIComponent s = s.
Proof.
  induction s as [|c s IH]; [done|].
  cbn [all_chars encodeURIComponent]. intros [Hc Hs]%andb_true_iff.
  by rewrite Hc, IH.
Qed.

Lemma all_chars_excludes P c s :
  all_chars P s = true -> P c = false -> has_char c s = false.
Proof.
  intros Hs Hc. induction s as [|x s IH]; [done|].
  cbn in *. apply andb_true_iff in Hs as [Hx Hs]. rewrite IH by done.
  rewrite orb_false_r. apply Ascii.eqb_neq. intros ->. congruence.
Qed.

(** X21.  The Content-Disposition of a served file is
    [attachment; filename="<encoded>"], where the encoded name is made of
    letters, digits, [- _ . ! ~ * ' ( )] and [%XX] escapes only: whatever
    the stored name holds, it cannot close the quotes or break the header
    line; and a name of unreserved characters is sent as it is. *)
Theorem served_name_is_header_safe u t meta name url upstream w :
  u <> EmptyString -> t <> EmptyString ->
  LINKS_KV w !! ("user:" +:+ u +:+ ":" +:+ t) = Some (Encodes meta) ->
  fileName meta = Some name ->
  fst (getTelegramFileLink env net (fileId meta) w) = Return (Some url) ->
  download net url = Some upstream ->
  200 <= status upstream <= 599 ->
  exists r encoded,
    fst (serveFile env net (Some u) (Some t) w) = Return r
    /\ Headers_get "Content-Disposition" (headers r)
       = Some ("attachment; filename=" +:+ dquote +:+ encoded +:+ dquote)
    /\ all_chars encoded_char encoded = true
    /\ has_char (Ascii.ascii_of_nat 34) encoded = false
    /\ has_char (Ascii.ascii_of_nat 13) encoded = false
    /\ has_char (Ascii.ascii_of_nat 10) encoded = false
    /\ (all_chars uri_unreserved name = true -> encoded = name).
Proof.
  intros Hu Ht Hkey Hname Hurl Hdown Hstatus.
  destruct (served_file_is_relayed_gen env net u t meta name url upstream w)
    as (r & Hr & _ & _ & _ & _ & Hheader); [done..|].
  exists r, (encodeURIComponent name).
  pose proof (encodeURIComponent_chars name) as Hchars.
  repeat split; try done.
  - by apply (all_chars_excludes encoded_char).
  - by apply (all_chars_excludes encoded_char).
  - by apply (all_chars_excludes encoded_char).
  - apply encodeURIComponent_plain.
Qed.

(** X22.  Whatever the request, a response the worker returns is one of
    its six fixed texts, with status 405, 200, 404, 400, 403 or 502, or it
    is the upstream response of a download, relayed under the name of a
    record that the Link Store holds and whose file resolved to the URL of
    that download. *)
Theorem worker_responses request w :
  match fst (handleRequest env net request w) with
  | Return r =>
      r ∈ [refused_response; ok_response; not_found_response;
           missing_response; forbidden_response; bad_gateway_response]
      \/ exists key meta url upstream,
           LINKS_KV w !! key = Some (Encodes meta)
           /\ fst (getTelegramFileLink env net (fileId meta) w) = Return (Some url)
           /\ download net url = Some upstream
           /\ r = relayed meta upstream
  | Throw _ => True
  end.
Proof.
  unfold handleRequest. cbn zeta.
  destruct (bool_decide _).
  { destruct (webhook_outcome env net request w); cbn; try done;
      try (left; set_solver);
      unfold acknowledged; destruct (post net _ _); try done;
      left; set_solver. }
  destruct (bool_decide _); [|cbn; left; set_solver].
  destruct (serve_outcome env net (split "/" (pathname request) !! 2%nat)
              (split "/" (pathname request) !! 3%nat) w); cbn;
    try done; try (left; set_solver).
  right. by eexists _, _, _, _.
Qed.

End Responses.

Lemma sent_link_can_be_redeemed_witness :
  let request := webhook_request (document_message (Some 1048576)) in
  let after := snd (handleRequest sample_env (sample_net "member") request empty_world) in
  let path := "/file/42/3b241101-e2bb-4255-8caf-4136c566a962" in
  calls after
  = [membership_query sample_env 42;
     reply sample_env 42
       (link_ready_text ("https://f2l.example.workers.dev" +:+ path))]
  /\ fst (handleRequest sample_env (sample_net "member")
            {| method := "GET"; pathname := path; payload := None |} after)
     = Return (relayed {| fileId := Some "abc"; fileName := Some "report.pdf";
                          fileSize := Some 1048576 |} upstream_file).
Proof.
  apply (sent_link_can_be_redeemed sample_env (sample_net "member")
           (sample_net "member")
           (webhook_request (document_message (Some 1048576)))
           (document_message (Some 1048576)) 42 42 empty_world "GET" None
           "https://api.telegram.org/file/bot123:secret/documents/file_7.pdf"
           upstream_file);
    first [ reflexivity | discriminate
          | split; [split|..]; first [reflexivity | lia | vm_compute; reflexivity]
          | vm_compute; reflexivity
          | vm_compute; split; discriminate ].
Defined.

Lemma two_messages_two_links_witness :
  let w1 := snd (handleTelegramWebhook sample_env (sample_net "member")
                   (webhook_request (document_message (Some 1048576))) empty_world) in
  let w2 := snd (handleTelegramWebhook sample_env second_net
                   (webhook_request (document_message (Some 2048))) w1) in
  LINKS_KV w2 !! key_of "42" "9f1c2d3e-0000-4000-8000-5a5a5a5a5a5a"
  = Some (Encodes {| fileId := Some "abc"; fileName := Some "report.pdf";
                     fileSize := Some 2048 |})
  /\ LINKS_KV w2 !! key_of "42" sample_token
     = Some (Encodes {| fileId := Some "abc"; fileName := Some "report.pdf";
                        fileSize := Some 1048576 |}).
Proof.
  destruct (two_messages_two_links sample_env (sample_net "member") second_net
              (webhook_request (document_message (Some 1048576)))
              (webhook_request (document_message (Some 2048)))
              (document_message (Some 1048576)) (document_message (Some 2048))
              42 42 42 42 empty_world
              ltac:(split; [split|..];
                    first [reflexivity | lia | vm_compute; reflexivity])
              eq_refl
              ltac:(split; [split|..];
                    first [reflexivity | lia | vm_compute; reflexivity])
              eq_refl) as [Hsecond Hfirst].
  split; [exact Hsecond|]. apply Hfirst. left. discriminate.
Defined.

Lemma empty_values_leave_the_header_witness :
  sendUserLinks sample_env (sample_net "member") 42 42 blank_world
  = (Return ok_response, log (reply sample_env 42 links_header) blank_world).
Proof.
  apply (empty_values_leave_the_header sample_env (sample_net "member") 42 42
           blank_world).
  - vm_compute. discriminate.
  - intros name Hname.
    assert (name = key_of "42" sample_token) as ->.
    { vm_compute in Hname. apply list_elem_of_singleton in Hname. exact Hname. }
    vm_compute. reflexivity.
Defined.

Lemma served_name_is_header_safe_witness :
  exists r encoded,
    fst (serveFile sample_env (sample_net "member") (Some "42") (Some sample_token)
           stored_world) = Return r
    /\ Headers_get "Content-Disposition" (headers r)
       = Some ("attachment; filename=" +:+ dquote +:+ encoded +:+ dquote)
    /\ all_chars encoded_char encoded = true
    /\ has_char (Ascii.ascii_of_nat 34) encoded = false
    /\ has_char (Ascii.ascii_of_nat 13) encoded = false
    /\ has_char (Ascii.ascii_of_nat 10) encoded = false
    /\ (all_chars uri_unreserved "annual report.pdf" = true ->
        encoded = "annual report.pdf").
Proof.
  apply (served_name_is_header_safe sample_env (sample_net "member")
           "42" sample_token sample_record "annual report.pdf"
           "https://api.telegram.org/file/bot123:secret/documents/file_7.pdf"
           upstream_file stored_world);
    first [discriminate | reflexivity | vm_compute; reflexivity
          | vm_compute; split; discriminate].
Defined.
